(** * Olive: media input node and audio render backend

    A shallow embedding of [MediaInput::Value] (app/node/input/media/media.cpp)
    and of the range and parameter interface that
    app/render/backend/audiorenderbackend.h declares, with the properties
    the specification states about them. *)

From Stdlib Require Import ZArith NArith QArith Qminmax Qround List Bool String Lia Lqa.
From Stdlib.Strings Require Import Byte.
Import ListNotations.

Local Open Scope Z_scope.

(** [rational] is olive's exact rational time. *)
Definition rational := Q.

(** * Collaborators of the media node

    The classes below are only used, not defined, by media.cpp; each record
    keeps the accessors the node calls, under the names the node calls them
    by. *)

(** olive::PixelFormat.  media.cpp names [PIX_FMT_RGBA32F] only; the other
    members stand for the remaining formats of the enumeration. *)
Inductive PixelFormat :=
| PIX_FMT_INVALID
| PIX_FMT_RGBA8
| PIX_FMT_RGBA16
| PIX_FMT_RGBA16F
| PIX_FMT_RGBA32F.

Definition PixelFormat_eqb (a b : PixelFormat) : bool :=
  match a, b with
  | PIX_FMT_INVALID, PIX_FMT_INVALID
  | PIX_FMT_RGBA8, PIX_FMT_RGBA8
  | PIX_FMT_RGBA16, PIX_FMT_RGBA16
  | PIX_FMT_RGBA16F, PIX_FMT_RGBA16F
  | PIX_FMT_RGBA32F, PIX_FMT_RGBA32F => true
  | _, _ => false
  end.

(** olive::RenderMode. *)
Inductive RenderMode := kOffline | kOnline.

(** The shader pipelines of olive::ShaderGenerator.  [OCIOPipeline] is the
    one that carries the colour transform on the GPU. *)
Inductive Pipeline := DefaultPipeline | OCIOPipeline.

Definition Stream := N.
Definition Context := N.
Definition NodeParamPtr := N.

Module Frame.
Record t := mk {
  width : Z;
  height : Z;
  format : PixelFormat;
  data : list byte
}.
End Frame.

Module Footage.
Record t := mk {
  decoder : string;
  stream : nat -> option Stream
}.
End Footage.

Module Decoder.
Record t := mk {
  id : string;
  stream : option Stream
}.

Definition set_stream (d : t) (s : option Stream) : t :=
  mk (id d) s.
End Decoder.

Module ColorService.
Record t := mk {
  source : string;
  role : string
}.
End ColorService.

Definition ROLE_SCENE_LINEAR : string := "scene_linear".

Module RenderTexture.
Inductive Type_ := kSingleBuffer | kDoubleBuffer.

Record t := mk {
  IsCreated : bool;
  width : Z;
  height : Z;
  format : PixelFormat;
  type : Type_;
  pixels : list byte
}.

(** A default-constructed texture: nothing on the GPU yet. *)
Definition empty : t := mk false 0 0 PIX_FMT_INVALID kSingleBuffer [].

Definition Create (w h : Z) (f : PixelFormat) (ty : Type_) (d : list byte) : t :=
  mk true w h f ty d.

Definition Destroy (x : t) : t :=
  mk false (width x) (height x) (format x) (type x) [].

Definition Upload (x : t) (d : list byte) : t :=
  mk (IsCreated x) (width x) (height x) (format x) (type x) d.
End RenderTexture.

Module RenderInstance.
Record t := mk {
  mode : RenderMode;
  context : Context;
  width : Z;
  height : Z;
  format : PixelFormat
}.
End RenderInstance.

(** What [Value] returns: the integer 0 or a texture. *)
Inductive QVariant :=
| VInt (n : Z)
| VTexture (tex : RenderTexture.t).

(** Everything outside the node that one evaluation reads. *)
Record World := mkWorld {
  (** RendererProcessor::CurrentInstance() *)
  CurrentInstance : option RenderInstance.t;
  (** ValueToPtr<Footage>(footage_input_->get_value(time)) *)
  footage_value : rational -> option Footage.t;
  (** Decoder::CreateFromID *)
  CreateFromID : string -> option Decoder.t;
  (** Decoder::Retrieve *)
  Retrieve : Decoder.t -> rational -> option Frame.t;
  (** PixelService::ConvertPixelFormat *)
  ConvertPixelFormat : Frame.t -> PixelFormat -> Frame.t;
  (** ColorService::ConvertFrame, which rewrites the frame it is given *)
  ConvertFrame : ColorService.t -> Frame.t -> Frame.t;
  (** What olive::gl::Blit leaves in the attached texture, cleared
      beforehand, when it draws the bound texture through a pipeline. *)
  Blit : Pipeline -> RenderTexture.t -> RenderTexture.t -> list byte
}.

(** * The node *)

Record MediaInput := mkMediaInput {
  footage_input_ : NodeParamPtr;
  matrix_input_ : NodeParamPtr;
  texture_output_ : NodeParamPtr;
  decoder_ : option Decoder.t;
  color_service_ : option ColorService.t;
  pipeline_ : option Pipeline;
  internal_tex_ : RenderTexture.t;
  ocio_texture_ : N
}.

Definition set_decoder_ (d : option Decoder.t) (n : MediaInput) : MediaInput :=
  mkMediaInput (footage_input_ n) (matrix_input_ n) (texture_output_ n)
    d (color_service_ n) (pipeline_ n) (internal_tex_ n) (ocio_texture_ n).

Definition set_color_service_ (c : option ColorService.t) (n : MediaInput) : MediaInput :=
  mkMediaInput (footage_input_ n) (matrix_input_ n) (texture_output_ n)
    (decoder_ n) c (pipeline_ n) (internal_tex_ n) (ocio_texture_ n).

Definition set_pipeline_ (p : option Pipeline) (n : MediaInput) : MediaInput :=
  mkMediaInput (footage_input_ n) (matrix_input_ n) (texture_output_ n)
    (decoder_ n) (color_service_ n) p (internal_tex_ n) (ocio_texture_ n).

Definition set_internal_tex_ (x : RenderTexture.t) (n : MediaInput) : MediaInput :=
  mkMediaInput (footage_input_ n) (matrix_input_ n) (texture_output_ n)
    (decoder_ n) (color_service_ n) (pipeline_ n) x (ocio_texture_ n).

(** The calls an evaluation makes on its collaborators, in program order. *)
Inductive Event :=
| EvCreateFromID (id : string)
| EvSetStream (before : Decoder.t) (s : option Stream)
| EvRetrieve (time : rational)
| EvConvertPixelFormat (f : PixelFormat)
| EvConvertFrame (c : ColorService.t)
| EvTexDestroy
| EvTexCreate (w h : Z) (f : PixelFormat)
| EvTexUpload
| EvOutputCreate (w h : Z) (f : PixelFormat)
| EvAttach
| EvFbBind
| EvClear
| EvTexBind
| EvBlit (p : Pipeline)
| EvTexRelease
| EvDetach
| EvFbRelease.

(** ** The evaluation monad

    A computation reads and writes the node's members, appends to the trace
    of calls, and stops with [NullDeref] when it goes through a null member
    pointer. *)

Inductive Outcome (A : Type) :=
| Done (a : A) (self : MediaInput) (trace : list Event)
| NullDeref.
Arguments Done {A} a self trace.
Arguments NullDeref {A}.

Definition M (A : Type) := MediaInput -> Outcome A.

Definition ret {A} (a : A) : M A := fun s => Done a s [].

Definition bind {A B} (m : M A) (k : A -> M B) : M B :=
  fun s =>
    match m s with
    | NullDeref => NullDeref
    | Done a s1 t1 =>
        match k a s1 with
        | NullDeref => NullDeref
        | Done b s2 t2 => Done b s2 (t1 ++ t2)
        end
    end.

Declare Scope media_scope.
Delimit Scope media_scope with media.
Notation "x <- m ;; k" := (bind m (fun x => k))
  (at level 61, m at next level, right associativity) : media_scope.
Notation "m ;; k" := (bind m (fun _ => k))
  (at level 61, right associativity) : media_scope.
Local Open Scope media_scope.

Definition this : M MediaInput := fun s => Done s s [].
Definition modify (f : MediaInput -> MediaInput) : M unit := fun s => Done tt (f s) [].
Definition call (e : Event) : M unit := fun s => Done tt s [e].

(** [p->...] on a member pointer. *)
Definition deref {A} (field : MediaInput -> option A) : M A :=
  fun s => match field s with
           | Some a => Done a s []
           | None => NullDeref
           end.

Definition when (b : bool) (m : M unit) : M unit := if b then m else ret tt.

Definition is_null {A} (p : option A) : bool :=
  match p with None => true | Some _ => false end.

(** ** MediaInput::Value *)

(** [decoder_ == nullptr && (decoder_ = Decoder::CreateFromID(...)) == nullptr] *)
Definition no_decoder (w : World) (footage : Footage.t) : M bool :=
  n <- this ;;
  if is_null (decoder_ n) then
    call (EvCreateFromID (Footage.decoder footage)) ;;
    modify (set_decoder_ (CreateFromID w (Footage.decoder footage))) ;;
    n <- this ;;
    ret (is_null (decoder_ n))
  else ret false.

(** [decoder_->set_stream(s)] *)
Definition decoder_set_stream (s : option Stream) : M unit :=
  d <- deref decoder_ ;;
  call (EvSetStream d s) ;;
  modify (set_decoder_ (Some (Decoder.set_stream d s))).

Definition internal_tex_Destroy : M unit :=
  call EvTexDestroy ;;
  modify (fun n => set_internal_tex_ (RenderTexture.Destroy (internal_tex_ n)) n).

Definition internal_tex_Create (w h : Z) (f : PixelFormat) (d : list byte) : M unit :=
  call (EvTexCreate w h f) ;;
  modify (set_internal_tex_ (RenderTexture.Create w h f RenderTexture.kSingleBuffer d)).

Definition internal_tex_Upload (d : list byte) : M unit :=
  call EvTexUpload ;;
  modify (fun n => set_internal_tex_ (RenderTexture.Upload (internal_tex_ n) d) n).

(** [Value] is embedded in four parts, in the order of its body; the line
    numbers are those of media.cpp. *)

(** Lines 116-142: the footage, the decoder and its stream, the frame.
    [None] stands for each [return 0] of these lines. *)
Definition retrieve_frame (w : World) (time : rational) : M (option Frame.t) :=
  match footage_value w time with
  | None => ret None
  | Some footage =>
      failed <- no_decoder w footage ;;
      if failed then ret None else
      d <- deref decoder_ ;;
      when (is_null (Decoder.stream d))
           (decoder_set_stream (Footage.stream footage 0%nat)) ;;
      d <- deref decoder_ ;;
      call (EvRetrieve time) ;;
      ret (Retrieve w d time)
  end.

(** Lines 144-168: the colour service and, online, the colour transform on
    the CPU.  [alpha_is_associated] is the local of line 105; the branches
    it selects are empty in the source. *)
Definition to_reference_space (w : World) (renderer : RenderInstance.t)
           (frame : Frame.t) : M Frame.t :=
  let alpha_is_associated := false in
  n <- this ;;
  when (is_null (color_service_ n))
       (modify (set_color_service_
                  (Some (ColorService.mk "srgb" ROLE_SCENE_LINEAR)))) ;;
  match RenderInstance.mode renderer with
  | kOnline =>
      call (EvConvertPixelFormat PIX_FMT_RGBA32F) ;;
      let frame := ConvertPixelFormat w frame PIX_FMT_RGBA32F in
      (if alpha_is_associated then ret tt else ret tt) ;;
      c <- deref color_service_ ;;
      call (EvConvertFrame c) ;;
      let frame := ConvertFrame w c frame in
      (if alpha_is_associated then ret tt else ret tt) ;;
      ret frame
  | kOffline => ret frame
  end.

(** Lines 170-188: the internal texture takes the frame. *)
Definition upload_frame (renderer : RenderInstance.t) (frame : Frame.t) : M unit :=
  n <- this ;;
  when (negb (RenderTexture.width (internal_tex_ n) =? Frame.width frame)
        || negb (RenderTexture.height (internal_tex_ n) =? Frame.height frame)
        || negb (PixelFormat_eqb (RenderTexture.format (internal_tex_ n))
                                 (Frame.format frame)))
       internal_tex_Destroy ;;
  n <- this ;;
  if negb (RenderTexture.IsCreated (internal_tex_ n))
  then internal_tex_Create (Frame.width frame) (Frame.height frame)
                           (Frame.format frame) (Frame.data frame)
  else internal_tex_Upload (Frame.data frame).

(** Lines 190-243: the output texture, the pipeline, the blit and the
    releases. *)
Definition blit_to_output (w : World) (renderer : RenderInstance.t)
  : M RenderTexture.t :=
  call (EvOutputCreate (RenderInstance.width renderer)
                       (RenderInstance.height renderer)
                       (RenderInstance.format renderer)) ;;
  let output_texture :=
    RenderTexture.Create (RenderInstance.width renderer)
                         (RenderInstance.height renderer)
                         (RenderInstance.format renderer)
                         RenderTexture.kDoubleBuffer [] in
  n <- this ;;
  match RenderInstance.mode renderer with
  | kOffline => when (is_null (pipeline_ n))
                     (modify (set_pipeline_ (Some DefaultPipeline)))
  | _ => when (is_null (pipeline_ n))
              (modify (set_pipeline_ (Some DefaultPipeline)))
  end ;;
  call EvAttach ;;
  call EvFbBind ;;
  call EvClear ;;
  call EvTexBind ;;
  n <- this ;;
  p <- deref pipeline_ ;;
  call (EvBlit p) ;;
  let output_texture :=
    RenderTexture.Upload output_texture
      (Blit w p (internal_tex_ n) output_texture) in
  call EvTexRelease ;;
  call EvDetach ;;
  call EvFbRelease ;;
  ret output_texture.

Definition Value (w : World) (output : NodeParamPtr) (time : rational) : M QVariant :=
  n <- this ;;
  if (output =? texture_output_ n)%N then
    match CurrentInstance w with
    | None => ret (VInt 0)
    | Some renderer =>
        frame <- retrieve_frame w time ;;
        match frame with
        | None => ret (VInt 0)
        | Some frame =>
            frame <- to_reference_space w renderer frame ;;
            upload_frame renderer frame ;;
            output_texture <- blit_to_output w renderer ;;
            ret (VTexture output_texture)
        end
    end
  else ret (VInt 0).

(** ** MediaInput::MediaInput *)

(** The node as its constructor leaves it; the three parameters are the
    objects the constructor allocates. *)
Definition MediaInput_new (footage_in matrix_in tex_out : NodeParamPtr) : MediaInput :=
  mkMediaInput footage_in matrix_in tex_out None None None RenderTexture.empty 0%N.

(** ** Reading an outcome *)

Definition returned {A} (o : Outcome A) : option A :=
  match o with Done a _ _ => Some a | NullDeref => None end.

Definition self_after {A} (n : MediaInput) (o : Outcome A) : MediaInput :=
  match o with Done _ s _ => s | NullDeref => n end.

Definition trace_of {A} (o : Outcome A) : list Event :=
  match o with Done _ _ t => t | NullDeref => [] end.

(** * Observations on an evaluation

    The definitions below read the trace and the node; the properties are
    stated with them. *)

(** ** Where the resolution of a frame can fail

    The decoder an evaluation works with is the member [decoder_] when it is
    set and a newly created one otherwise; it is given stream 0 of the
    footage when it has no stream. *)

Definition decoder_in_use (w : World) (n : MediaInput) (footage : Footage.t)
  : option Decoder.t :=
  match decoder_ n with
  | Some d => Some d
  | None => CreateFromID w (Footage.decoder footage)
  end.

Definition with_stream (footage : Footage.t) (d : Decoder.t) : Decoder.t :=
  match Decoder.stream d with
  | Some _ => d
  | None => Decoder.set_stream d (Footage.stream footage 0%nat)
  end.

Inductive resolution_fails (w : World) (n : MediaInput) (time : rational) : Prop :=
| no_renderer :
    CurrentInstance w = None ->
    resolution_fails w n time
| no_footage :
    footage_value w time = None ->
    resolution_fails w n time
| no_decoder_created footage :
    footage_value w time = Some footage ->
    decoder_ n = None ->
    CreateFromID w (Footage.decoder footage) = None ->
    resolution_fails w n time
| no_frame footage d :
    footage_value w time = Some footage ->
    decoder_in_use w n footage = Some d ->
    Retrieve w (with_stream footage d) time = None ->
    resolution_fails w n time.

(** The decoder the node holds after lines 116-142. *)
Definition decoder_after (w : World) (n : MediaInput) (time : rational)
  : option Decoder.t :=
  match footage_value w time with
  | None => decoder_ n
  | Some footage => option_map (with_stream footage) (decoder_in_use w n footage)
  end.

(** The frame lines 116-142 come out with. *)
Definition frame_at (w : World) (n : MediaInput) (time : rational)
  : option Frame.t :=
  match footage_value w time with
  | None => None
  | Some footage =>
      match decoder_in_use w n footage with
      | None => None
      | Some d => Retrieve w (with_stream footage d) time
      end
  end.

(** ** The internal texture *)

(** The frame has the width, height and pixel format of the texture. *)
Definition same_layout (tex : RenderTexture.t) (frame : Frame.t) : Prop :=
  RenderTexture.width tex = Frame.width frame /\
  RenderTexture.height tex = Frame.height frame /\
  RenderTexture.format tex = Frame.format frame.

Definition is_TexCreate (e : Event) : bool :=
  match e with EvTexCreate _ _ _ => true | _ => false end.

Definition is_TexDestroy (e : Event) : bool :=
  match e with EvTexDestroy => true | _ => false end.

Definition is_TexUpload (e : Event) : bool :=
  match e with EvTexUpload => true | _ => false end.

(** The texture calls of a trace. *)
Definition texture_calls (tr : list Event) : list Event :=
  filter (fun e => is_TexDestroy e || is_TexCreate e || is_TexUpload e) tr.

(** ** The colour transform *)

(** The pipeline the blit draws through: the cached one, or the default
    pipeline when none is cached; the render mode makes no difference. *)
Definition pipeline_or_default (n : MediaInput) : Pipeline :=
  match pipeline_ n with
  | Some p => p
  | None => DefaultPipeline
  end.

(** The colour service an evaluation works with: the cached one, or the
    one line 146 constructs. *)
Definition color_service_or_default (n : MediaInput) : ColorService.t :=
  match color_service_ n with
  | Some c => c
  | None => ColorService.mk "srgb" ROLE_SCENE_LINEAR
  end.

(** Whether a pipeline carries the colour transform. *)
Definition transforms_color (p : Pipeline) : bool :=
  match p with
  | OCIOPipeline => true
  | DefaultPipeline => false
  end.

(** The calls of a trace that transform colour, on the CPU
    ([ConvertFrame]) or on the GPU (a blit through a pipeline that carries
    the transform). *)
Definition color_transforms (tr : list Event) : list Event :=
  filter (fun e => match e with
                   | EvConvertFrame _ => true
                   | EvBlit p => transforms_color p
                   | _ => false
                   end) tr.

(** ** Transient bind state *)

(** How many times each binding is held: the internal texture bound, a
    texture attached to the renderer's framebuffer, the framebuffer bound. *)
Record Bindings := mkBindings {
  tex_bound : nat;
  fb_attached : nat;
  fb_bound : nat
}.

(** One call on the bindings; a release of something not held is refused. *)
Definition bind_step (b : Bindings) (e : Event) : option Bindings :=
  match e with
  | EvTexBind => Some (mkBindings (S (tex_bound b)) (fb_attached b) (fb_bound b))
  | EvTexRelease =>
      match tex_bound b with
      | O => None
      | S k => Some (mkBindings k (fb_attached b) (fb_bound b))
      end
  | EvAttach => Some (mkBindings (tex_bound b) (S (fb_attached b)) (fb_bound b))
  | EvDetach =>
      match fb_attached b with
      | O => None
      | S k => Some (mkBindings (tex_bound b) k (fb_bound b))
      end
  | EvFbBind => Some (mkBindings (tex_bound b) (fb_attached b) (S (fb_bound b)))
  | EvFbRelease =>
      match fb_bound b with
      | O => None
      | S k => Some (mkBindings (tex_bound b) (fb_attached b) k)
      end
  | _ => Some b
  end.

Fixpoint bindings_after (b : Bindings) (tr : list Event) : option Bindings :=
  match tr with
  | [] => Some b
  | e :: tr' =>
      match bind_step b e with
      | Some b' => bindings_after b' tr'
      | None => None
      end
  end.

(** The calls of a trace that acquire a binding. *)
Definition acquisitions (tr : list Event) : list Event :=
  filter (fun e => match e with
                   | EvTexBind | EvAttach | EvFbBind => true
                   | _ => false
                   end) tr.

(** ** The decoder over a run of evaluations *)

(** One call of [Value] on the node, with the world as it is at that
    call. *)
Record Request := mkRequest {
  rq_world : World;
  rq_output : NodeParamPtr;
  rq_time : rational
}.

(** The node after a run of calls, and the calls they made. *)
Fixpoint evaluate_all (rqs : list Request) (n : MediaInput)
  : MediaInput * list Event :=
  match rqs with
  | [] => (n, [])
  | r :: rest =>
      let o := Value (rq_world r) (rq_output r) (rq_time r) n in
      let (n', tr) := evaluate_all rest (self_after n o) in
      (n', trace_of o ++ tr)
  end.

Definition is_SetStream (e : Event) : bool :=
  match e with EvSetStream _ _ => true | _ => false end.

Definition is_CreateFromID (e : Event) : bool :=
  match e with EvCreateFromID _ => true | _ => false end.

(** A [set_stream] call that gives the decoder a stream. *)
Definition binds_stream (e : Event) : bool :=
  match e with EvSetStream _ (Some _) => true | _ => false end.

(** Every [set_stream] call of the trace is made on a decoder that has no
    stream. *)
Definition set_stream_only_unbound (tr : list Event) : Prop :=
  forall d s, In (EvSetStream d s) tr -> Decoder.stream d = None.

(** The node holds a decoder that has a stream. *)
Definition decoder_bound (n : MediaInput) : Prop :=
  exists d st, decoder_ n = Some d /\ Decoder.stream d = Some st.

(** ** The shape of an evaluation *)

(** An evaluation is one of: 0 at once, for another output or without a
    renderer; 0 after lines 116-142 gave no frame; a texture after all four
    parts ran. *)
Inductive Value_run (w : World) (output : NodeParamPtr) (time : rational)
          (n : MediaInput) : Outcome QVariant -> Prop :=
| run_not_asked :
    (output =? texture_output_ n)%N = false \/ CurrentInstance w = None ->
    Value_run w output time n (Done (VInt 0) n [])
| run_no_frame renderer n1 tr1 :
    output = texture_output_ n ->
    CurrentInstance w = Some renderer ->
    retrieve_frame w time n = Done None n1 tr1 ->
    Value_run w output time n (Done (VInt 0) n1 tr1)
| run_texture renderer frame n1 tr1 frame' tr2 tex tr3 :
    output = texture_output_ n ->
    CurrentInstance w = Some renderer ->
    retrieve_frame w time n = Done (Some frame) n1 tr1 ->
    let n2 := set_color_service_ (Some (color_service_or_default n1)) n1 in
    let n3 := set_internal_tex_ tex n2 in
    let p := pipeline_or_default n3 in
    let target :=
      RenderTexture.Create (RenderInstance.width renderer)
        (RenderInstance.height renderer) (RenderInstance.format renderer)
        RenderTexture.kDoubleBuffer [] in
    to_reference_space w renderer frame n1 = Done frame' n2 tr2 ->
    upload_frame renderer frame' n2 = Done tt n3 tr3 ->
    (tr2 = [] \/
     tr2 = [EvConvertPixelFormat PIX_FMT_RGBA32F;
            EvConvertFrame (color_service_or_default n1)]) ->
    (tr3 = [EvTexUpload] \/
     tr3 = [EvTexCreate (Frame.width frame') (Frame.height frame')
              (Frame.format frame')] \/
     tr3 = [EvTexDestroy;
            EvTexCreate (Frame.width frame') (Frame.height frame')
              (Frame.format frame')]) ->
    Value_run w output time n
      (Done (VTexture (RenderTexture.Upload target (Blit w p tex target)))
            (set_pipeline_ (Some p) n3)
            (tr1 ++ tr2 ++ tr3 ++
             [EvOutputCreate (RenderInstance.width renderer)
                (RenderInstance.height renderer) (RenderInstance.format renderer);
              EvAttach; EvFbBind; EvClear; EvTexBind; EvBlit p;
              EvTexRelease; EvDetach; EvFbRelease])).

(** * The audio render backend

    audiorenderbackend.h declares [SetParameters], [InvalidateCache],
    [GenerateCacheIDInternal], [CombineRange] and [RangesOverlap] and the
    members [params_] and [pcm_data_]; their bodies and the [TimeRange]
    class are not part of the sources at hand. *)

Module TimeRange.
Local Open Scope Q_scope.

(** Modelled from the spec: the TimeRange class (common/timerange.h), a
    half-open interval [[start, end)] in exact rational time. *)
Record t := mk {
  start : rational;
  end_ : rational
}.

(** Modelled from the spec: the invariant [start <= end] of a range. *)
Definition valid (r : t) : Prop := start r <= end_ r.

(** Modelled from the spec: the time [x] lies in the half-open interval. *)
Definition covers (r : t) (x : rational) : Prop := start r <= x /\ x < end_ r.

(** Modelled from the spec: [outer] contains [inner], it reaches at least
    as far on both sides. *)
Definition contains (outer inner : t) : Prop :=
  start outer <= start inner /\ end_ inner <= end_ outer.
End TimeRange.

(** [x < y] on rationals, as a test. *)
Definition Qlt_bool (x y : Q) : bool := negb (Qle_bool y x).

Module AudioRenderBackend.
Import TimeRange.

(** Modelled from the spec: the body of AudioRenderBackend::RangesOverlap,
    true iff [a.start < b.end && b.start < a.end]. *)
Definition RangesOverlap (a b : TimeRange.t) : bool :=
  Qlt_bool (start a) (end_ b) && Qlt_bool (start b) (end_ a).

(** Modelled from the spec: two ranges are exactly adjacent when one ends
    where the other starts. *)
Definition adjacent (a b : TimeRange.t) : bool :=
  Qeq_bool (end_ a) (start b) || Qeq_bool (end_ b) (start a).

(** Modelled from the spec: the body of AudioRenderBackend::CombineRange,
    defined only when the ranges overlap or are exactly adjacent, and then
    [[min(a.start,b.start), max(a.end,b.end))]; [None] is the rejected
    call. *)
Definition CombineRange (a b : TimeRange.t) : option TimeRange.t :=
  if RangesOverlap a b || adjacent a b
  then Some (TimeRange.mk (Qmin (start a) (start b)) (Qmax (end_ a) (end_ b)))
  else None.

(** Modelled from the spec: the AudioRenderingParams class, the
    parameters a render is made with. *)
Record AudioRenderingParams := mkParams {
  sample_rate : Z;
  channel_layout : Z;
  format : Z
}.

(** Modelled from the spec: the two states of a backend, Stopped ->
    Rendering on render start and back on completion or cancel. *)
Inductive State := Stopped | Rendering.

(** Modelled from the spec: the backend object, with the members the
    header declares ([params_], [pcm_data_]) and the state and dirty ranges
    the spec gives it. *)
Record t := mk {
  state : State;
  params_ : AudioRenderingParams;
  pcm_data_ : list byte;
  dirty : list TimeRange.t
}.

(** Modelled from the spec: the illegal-state condition of the error
    taxonomy. *)
Inductive Error := IllegalState.

(** Modelled from the spec: the body of AudioRenderBackend::SetParameters,
    valid only when the backend is stopped; while rendering the call fails
    with an illegal-state condition and leaves the backend as it was. *)
Definition SetParameters (b : t) (params : AudioRenderingParams)
  : t * option Error :=
  match state b with
  | Rendering => (b, Some IllegalState)
  | Stopped => (mk Stopped params (pcm_data_ b) (dirty b), None)
  end.

(** Modelled from the spec: a render starts from the stopped state. *)
Definition StartRender (b : t) : t * option Error :=
  match state b with
  | Rendering => (b, Some IllegalState)
  | Stopped => (mk Rendering (params_ b) (pcm_data_ b) (dirty b), None)
  end.

(** Modelled from the spec: completion or cancel of a render. *)
Definition FinishRender (b : t) : t :=
  mk Stopped (params_ b) (pcm_data_ b) (dirty b).
End AudioRenderBackend.

(** * The rest of the media node *)

(** The raw OpenGL calls [Release] makes through [ocio_ctx_->functions()]. *)
Inductive GLCall :=
| glDeleteTextures (n : Z) (texture : N).

(** MediaInput::Release (lines 75-86).  [ocio_ctx_] is the member the call of
    line 84 goes through; no line of media.cpp assigns it, so it is taken
    as it is found, null or not.  The value returned lists the raw OpenGL
    calls made. *)
Definition Release (ocio_ctx_ : option Context) : M (list GLCall) :=
  internal_tex_Destroy ;;
  modify (set_decoder_ None) ;;
  modify (set_color_service_ None) ;;
  modify (set_pipeline_ None) ;;
  n <- this ;;
  if negb (ocio_texture_ n =? 0)%N then
    _ <- deref (fun _ => ocio_ctx_) ;;
    ret [glDeleteTextures 1 (ocio_texture_ n)]
  else ret [].

(** The node after [Release]. *)
Definition released (ocio_ctx_ : option Context) (n : MediaInput) : MediaInput :=
  self_after n (Release ocio_ctx_ n).

(** A call on the node from outside. *)
Inductive Call :=
| CallValue (r : Request)
| CallRelease (ocio_ctx_ : option Context).

(** A run of calls on the node, one after the other; the value is the list
    of raw OpenGL calls made. *)
Fixpoint serve (cs : list Call) : M (list GLCall) :=
  match cs with
  | [] => ret []
  | c :: rest =>
      g <- match c with
           | CallValue r =>
               Value (rq_world r) (rq_output r) (rq_time r) ;; ret []
           | CallRelease ocio_ctx_ => Release ocio_ctx_
           end ;;
      gs <- serve rest ;;
      ret (g ++ gs)
  end.

Definition is_CallRelease (c : Call) : bool :=
  match c with CallRelease _ => true | CallValue _ => false end.

Definition count_releases (cs : list Call) : nat :=
  List.length (filter is_CallRelease cs).

(** The node holds a decoder that has a stream, as a test. *)
Definition has_stream (n : MediaInput) : bool :=
  match decoder_ n with
  | Some d => negb (is_null (Decoder.stream d))
  | None => false
  end.

(** The world with another footage selected at every time. *)
Definition select_footage (footage : Footage.t) (w : World) : World :=
  mkWorld (CurrentInstance w) (fun _ => Some footage) (CreateFromID w)
          (Retrieve w) (ConvertPixelFormat w) (ConvertFrame w) (Blit w).

(** A call on the decoder or for one. *)
Definition is_decoder_call (e : Event) : bool :=
  match e with
  | EvCreateFromID _ | EvSetStream _ _ | EvRetrieve _ => true
  | _ => false
  end.

(** * The timeline view (app/widget/timelinewidget/view/timelineview.cpp) *)

(** The track types [TrackTypeToStreamType] tells apart. *)
Inductive TrackType :=
| kTrackTypeNone
| kTrackTypeVideo
| kTrackTypeAudio
| kTrackTypeSubtitle
| kTrackTypeCount.

Module StreamType.
(** The members of Stream::Type that [TrackTypeToStreamType] returns. *)
Inductive t := kUnknown | kVideo | kAudio | kSubtitle.
End StreamType.

(** TimelineView::TrackTypeToStreamType (lines 202-217). *)
Definition TrackTypeToStreamType (track_type : TrackType) : StreamType.t :=
  match track_type with
  | kTrackTypeNone | kTrackTypeCount => StreamType.kUnknown
  | kTrackTypeVideo => StreamType.kVideo
  | kTrackTypeAudio => StreamType.kAudio
  | kTrackTypeSubtitle => StreamType.kSubtitle
  end.

(** C++ [int]: 32 bits, two's complement.  An operation whose result does
    not fit is undefined; [int] gives [None] for it. *)
Definition INT_MAX : Z := 2147483647.

Definition INT_MIN : Z := -2147483648.

Definition int (z : Z) : option Z :=
  if (INT_MIN <=? z) && (z <=? INT_MAX) then Some z else None.

(** Qt::AlignLeft, Qt::AlignTop and Qt::AlignBottom, bits of
    Qt::Alignment. *)
Definition AlignLeft : Z := 1.

Definition AlignTop : Z := 32.

Definition AlignBottom : Z := 64.

Module TimelineView.
(** What the functions below read of the view: [alignment()] and
    [fontMetrics().height()]. *)
Record t := mk {
  alignment : Z;
  fontMetrics_height : Z
}.

(** [alignment() & Qt::AlignBottom] as a condition. *)
Definition bottom_aligned (v : t) : bool :=
  negb (Z.land (alignment v) AlignBottom =? 0).

(** TimelineView::GetTrackHeight (lines 244-250). *)
Definition GetTrackHeight (v : t) (track_index : Z) : option Z :=
  int (fontMetrics_height v * 3).

(** The loop of lines 233-235; [fuel] bounds the iterations. *)
Fixpoint GetTrackY_loop (v : t) (track_index : Z) (fuel : nat) (i y : Z)
  : option Z :=
  if i <? track_index then
    match fuel with
    | O => None
    | S fuel' =>
        match GetTrackHeight v i with
        | None => None
        | Some h =>
            match int (y + h) with
            | None => None
            | Some y' =>
                match int (i + 1) with
                | None => None
                | Some i' => GetTrackY_loop v track_index fuel' i' y'
                end
            end
        end
    end
  else Some y.

(** TimelineView::GetTrackY (lines 229-242).  The loop runs [track_index]
    times at most, which is the fuel it gets. *)
Definition GetTrackY (v : t) (track_index : Z) : option Z :=
  match GetTrackY_loop v track_index (Z.to_nat track_index) 0 0 with
  | None => None
  | Some y =>
      if bottom_aligned v then
        match int (- y), GetTrackHeight v 0 with
        | Some ny, Some h => int (ny - h)
        | _, _ => None
        end
      else Some y
  end.

(** The do-while loop of lines 272-275.  [y] is the [double] of the source,
    taken finite; its comparison with an [int] is exact. *)
Fixpoint SceneToTrack_loop (v : t) (y : Q) (fuel : nat) (track heights : Z)
  : option Z :=
  match fuel with
  | O => None
  | S fuel' =>
      match int (track + 1) with
      | None => None
      | Some track' =>
          match GetTrackHeight v track' with
          | None => None
          | Some h =>
              match int (heights + h) with
              | None => None
              | Some heights' =>
                  if Qlt_bool (inject_Z heights') y
                  then SceneToTrack_loop v y fuel' track' heights'
                  else Some track'
              end
          end
      end
  end.

(** TimelineView::SceneToTrack (lines 263-278); [fuel] bounds the
    iterations of its loop. *)
Definition SceneToTrack (v : t) (y : Q) (fuel : nat) : option Z :=
  let y := if bottom_aligned v then Qopp y else y in
  SceneToTrack_loop v y fuel (-1) 0.

(** The coordinate [SceneToTrack] counts track heights against: [y] from
    the top of a top-aligned view, [-y] from the bottom of a bottom-aligned
    one. *)
Definition depth (v : t) (y : Q) : Q :=
  if bottom_aligned v then Qopp y else y.

(** The coordinate [y] is in track [t]: at depth in [(t * h, (t + 1) * h]]
    for the track height [h], and for track 0 anywhere above its lower
    edge. *)
Definition in_track (v : t) (y : Q) (track : Z) : Prop :=
  let h := fontMetrics_height v * 3 in
  0 <= track /\
  (track = 0 \/ (inject_Z (track * h) < depth v y)%Q) /\
  (depth v y <= inject_Z ((track + 1) * h))%Q.
End TimelineView.

(** * Worlds and backends to run the definitions in *)

Module Example.
Definition frame : Frame.t := Frame.mk 4 2 PIX_FMT_RGBA8 [x01; x02; x03; x04].

Definition footage : Footage.t :=
  Footage.mk "ffmpeg" (fun i => match i with O => Some 7%N | _ => None end).

Definition renderer (m : RenderMode) : RenderInstance.t :=
  RenderInstance.mk m 1%N 16 9 PIX_FMT_RGBA16F.

Definition world (m : RenderMode) : World :=
  mkWorld (Some (renderer m))
          (fun _ => Some footage)
          (fun id => if String.eqb id "ffmpeg" then Some (Decoder.mk id None) else None)
          (fun d _ => match Decoder.stream d with
                      | Some _ => Some frame
                      | None => None
                      end)
          (fun f fmt => Frame.mk (Frame.width f) (Frame.height f) fmt
                                 (Frame.data f ++ Frame.data f))
          (fun _ f => Frame.mk (Frame.width f) (Frame.height f) (Frame.format f)
                               (rev (Frame.data f)))
          (fun p src _ => match p with
                          | DefaultPipeline => RenderTexture.pixels src
                          | OCIOPipeline => x00 :: RenderTexture.pixels src
                          end).

(** The same world with no footage connected. *)
Definition world_no_footage : World :=
  mkWorld (Some (renderer kOnline)) (fun _ => None)
          (CreateFromID (world kOnline)) (Retrieve (world kOnline))
          (ConvertPixelFormat (world kOnline)) (ConvertFrame (world kOnline))
          (Blit (world kOnline)).

Definition node : MediaInput := MediaInput_new 10%N 11%N 12%N.

(** The node after one offline evaluation of its texture output. *)
Definition node_warm : MediaInput :=
  Eval vm_compute in
    self_after node (Value (world kOffline) 12%N (1 # 2) node).

(** A run of calls in changing worlds. *)
Definition requests : list Request :=
  [mkRequest (world kOffline) 12%N (1 # 2);
   mkRequest (world kOnline) 12%N (3 # 4);
   mkRequest world_no_footage 12%N (1 # 1);
   mkRequest (world kOnline) 11%N (1 # 1)].
End Example.

Module AudioExample.
Import AudioRenderBackend.

Definition params_48k : AudioRenderingParams := mkParams 48000 3 1.
Definition params_44k : AudioRenderingParams := mkParams 44100 3 1.

Definition stopped : AudioRenderBackend.t :=
  AudioRenderBackend.mk Stopped params_48k [] [].

Definition rendering : AudioRenderBackend.t := fst (StartRender stopped).

Definition r_5_10 : TimeRange.t := TimeRange.mk (5 # 1) (10 # 1).
Definition r_10_15 : TimeRange.t := TimeRange.mk (10 # 1) (15 # 1).
Definition r_0_5 : TimeRange.t := TimeRange.mk (0 # 1) (5 # 1).
Definition r_3_8 : TimeRange.t := TimeRange.mk (3 # 1) (8 # 1).
End AudioExample.

Module ReleaseExample.
(** Evaluate, release, evaluate online, release, evaluate twice. *)
Definition calls : list Call :=
  [CallValue (mkRequest (Example.world kOffline) 12%N (1 # 2));
   CallRelease None;
   CallValue (mkRequest (Example.world kOnline) 12%N (1 # 2));
   CallRelease (Some 1%N);
   CallValue (mkRequest (Example.world kOffline) 12%N (3 # 4));
   CallValue (mkRequest (Example.world kOffline) 12%N (1 # 1))].

Definition outcome : Outcome (list GLCall) :=
  Eval vm_compute in serve calls Example.node.

(** What the evaluation after a release of [Example.node_warm] returns. *)
Definition after_release : Outcome QVariant :=
  Eval vm_compute in
    Value (Example.world kOffline) 12%N (1 # 2)
          (released None Example.node_warm).

(** Another footage, with another decoder and another stream. *)
Definition other_footage : Footage.t :=
  Footage.mk "image" (fun _ => Some 9%N).
End ReleaseExample.

Module TimelineExample.
(** A top-aligned and a bottom-aligned view with a font 16 high, so with
    tracks 48 high, and a view whose font has no height. *)
Definition top : TimelineView.t := TimelineView.mk (Z.lor AlignLeft AlignTop) 16.

Definition bottom : TimelineView.t :=
  TimelineView.mk (Z.lor AlignLeft AlignBottom) 16.

Definition flat : TimelineView.t := TimelineView.mk (Z.lor AlignLeft AlignTop) 0.
End TimelineExample.

(** * Properties of MediaInput::Value *)

(** Unfolds one evaluation down to the tests it makes on the world and on
    the node, then splits on each test in program order. *)
Ltac unfold_eval :=
  cbv beta iota zeta delta
    [Value retrieve_frame to_reference_space upload_frame blit_to_output
     no_decoder decoder_set_stream internal_tex_Destroy
     internal_tex_Create internal_tex_Upload bind ret this modify call
     deref when is_null returned self_after trace_of
     set_decoder_ set_color_service_ set_pipeline_ set_internal_tex_
     decoder_ color_service_ pipeline_ internal_tex_ texture_output_
     footage_input_ matrix_input_ ocio_texture_ app].

Ltac split_test :=
  match goal with
  | |- context [match ?x with _ => _ end] =>
      lazymatch x with
      | context [match _ with _ => _ end] => fail
      | _ => destruct x eqn:?
      end
  end.

Ltac eval_cases := unfold_eval; repeat (split_test; unfold_eval).

Lemma PixelFormat_eqb_eq (a b : PixelFormat) :
  PixelFormat_eqb a b = true <-> a = b.
Proof. destruct a, b; simpl; split; congruence. Qed.

Lemma bind_Done {A B} (m : M A) (k : A -> M B) (s s1 : MediaInput)
      (a : A) (t1 : list Event) :
  m s = Done a s1 t1 ->
  bind m k s = match k a s1 with
               | NullDeref => NullDeref
               | Done b s2 t2 => Done b s2 (t1 ++ t2)
               end.
Proof. intros H. unfold bind. rewrite H. reflexivity. Qed.

(** ** The parts of [Value], one at a time *)

(** Lines 116-142 leave the texture, the colour service and the pipeline
    alone and make no texture call. *)
Lemma retrieve_frame_frame (w : World) (time : rational) (n n1 : MediaInput)
      (f : option Frame.t) (tr : list Event) :
  retrieve_frame w time n = Done f n1 tr ->
  internal_tex_ n1 = internal_tex_ n /\
  pipeline_ n1 = pipeline_ n /\
  color_service_ n1 = color_service_ n /\
  texture_output_ n1 = texture_output_ n /\
  texture_calls tr = [].
Proof.
  destruct n as [fi mi to dec cs pl tex ocio].
  eval_cases; intros H; inversion H; subst; simpl; auto.
Qed.

(** Lines 116-142 always return. *)
Lemma retrieve_frame_returns (w : World) (time : rational) (n : MediaInput) :
  exists f n1 tr1, retrieve_frame w time n = Done f n1 tr1.
Proof.
  destruct n as [fi mi to dec cs pl tex ocio].
  eval_cases; eauto.
Qed.

(** Lines 116-142 in closed form, up to the calls made. *)
Lemma retrieve_frame_eq (w : World) (time : rational) (n : MediaInput) :
  exists tr,
    retrieve_frame w time n
    = Done (frame_at w n time) (set_decoder_ (decoder_after w n time) n) tr.
Proof.
  destruct n as [fi mi to dec cs pl tex ocio].
  unfold frame_at, decoder_after, decoder_in_use, with_stream, option_map.
  eval_cases; eexists; reflexivity.
Qed.

(** Run again on the decoder they left behind, lines 116-142 come out with
    the same frame and leave the same decoder. *)
Lemma frame_at_again (w : World) (time : rational) (n m : MediaInput) :
  decoder_ m = decoder_after w n time ->
  frame_at w m time = frame_at w n time /\
  decoder_after w m time = decoder_after w n time.
Proof.
  unfold frame_at, decoder_after, decoder_in_use, with_stream, option_map.
  intros ->.
  destruct (footage_value w time) as [footage |]; [| auto].
  destruct (decoder_ n) as [d |].
  - destruct (Decoder.stream d) eqn:Hs.
    + rewrite Hs. auto.
    + unfold Decoder.set_stream. simpl.
      destruct (Footage.stream footage 0); auto.
  - destruct (CreateFromID w (Footage.decoder footage)) as [d |]; [| auto].
    destruct (Decoder.stream d) eqn:Hs.
    + rewrite Hs. auto.
    + unfold Decoder.set_stream. simpl.
      destruct (Footage.stream footage 0); auto.
Qed.

(** Lines 116-142, as far as the decoder goes. *)
Lemma retrieve_frame_decoder (w : World) (time : rational) (n : MediaInput) :
  let o := retrieve_frame w time n in
  let tr := trace_of o in
  let n' := self_after n o in
  set_stream_only_unbound tr /\
  (List.length (filter binds_stream tr) <= 1)%nat /\
  (filter binds_stream tr <> [] -> decoder_bound n') /\
  (decoder_ n <> None ->
   filter is_CreateFromID tr = [] /\ decoder_ n' <> None) /\
  (decoder_bound n ->
   decoder_ n' = decoder_ n /\
   filter is_SetStream tr = [] /\ filter is_CreateFromID tr = []).
Proof.
  cbv zeta. unfold set_stream_only_unbound, decoder_bound.
  destruct n as [fi mi to dec cs pl tex ocio].
  eval_cases; simpl; repeat (split_test; simpl).
  all: split;
    [intros d' s' Hin;
     repeat (destruct Hin as [Hin | Hin]; try discriminate Hin);
     try contradiction; inversion Hin; subst; assumption |].
  all: split; [lia |].
  all: split;
    [intros Hb;
     first [exfalso; apply Hb; reflexivity
           | eexists; eexists;
             split; [reflexivity | first [reflexivity | eassumption]]] |].
  all: split;
    [intros Hd;
     first [exfalso; apply Hd; reflexivity
           | split; [reflexivity | first [discriminate | assumption]]] |].
  all: intros (d' & st' & Hd & Hs); try discriminate.
  all: try (inversion Hd; subst; congruence).
  all: repeat split; try reflexivity.
Qed.

(** Lines 144-168 leave the texture, the decoder and the pipeline alone and
    make no texture call. *)
Lemma to_reference_space_frame (w : World) (renderer : RenderInstance.t)
      (frame frame' : Frame.t) (n n1 : MediaInput) (tr : list Event) :
  to_reference_space w renderer frame n = Done frame' n1 tr ->
  internal_tex_ n1 = internal_tex_ n /\
  pipeline_ n1 = pipeline_ n /\
  decoder_ n1 = decoder_ n /\
  texture_output_ n1 = texture_output_ n /\
  texture_calls tr = [].
Proof.
  destruct n as [fi mi to dec cs pl tex ocio].
  eval_cases; intros H; inversion H; subst; simpl; auto.
Qed.

(** Lines 144-168 in closed form, online: the frame is converted to
    RGBA32F and then transformed by the colour service on the CPU. *)
Lemma to_reference_space_online (w : World) (renderer : RenderInstance.t)
      (frame : Frame.t) (n : MediaInput) :
  RenderInstance.mode renderer = kOnline ->
  let c := color_service_or_default n in
  to_reference_space w renderer frame n
  = Done (ConvertFrame w c (ConvertPixelFormat w frame PIX_FMT_RGBA32F))
         (set_color_service_ (Some c) n)
         [EvConvertPixelFormat PIX_FMT_RGBA32F; EvConvertFrame c].
Proof.
  intros Hm. destruct n as [fi mi to dec cs pl tex ocio].
  unfold to_reference_space, color_service_or_default. rewrite Hm.
  destruct cs; reflexivity.
Qed.

(** Lines 144-168 in closed form, offline: the frame goes on as the decoder
    gave it. *)
Lemma to_reference_space_offline (w : World) (renderer : RenderInstance.t)
      (frame : Frame.t) (n : MediaInput) :
  RenderInstance.mode renderer = kOffline ->
  to_reference_space w renderer frame n
  = Done frame (set_color_service_ (Some (color_service_or_default n)) n) [].
Proof.
  intros Hm. destruct n as [fi mi to dec cs pl tex ocio].
  unfold to_reference_space, color_service_or_default. rewrite Hm.
  destruct cs; reflexivity.
Qed.

(** Lines 144-168 always return. *)
Lemma to_reference_space_returns (w : World) (renderer : RenderInstance.t)
      (frame : Frame.t) (n : MediaInput) :
  exists frame' tr,
    to_reference_space w renderer frame n
    = Done frame' (set_color_service_ (Some (color_service_or_default n)) n) tr /\
    (tr = [] \/
     tr = [EvConvertPixelFormat PIX_FMT_RGBA32F;
           EvConvertFrame (color_service_or_default n)]).
Proof.
  destruct (RenderInstance.mode renderer) eqn:Hm.
  - rewrite (to_reference_space_offline w renderer frame n Hm). eauto.
  - rewrite (to_reference_space_online w renderer frame n Hm). eauto.
Qed.

(** The test of lines 173-175 fails exactly on a frame with the texture's
    layout. *)
Lemma layout_test (tex : RenderTexture.t) (frame : Frame.t) :
  negb (RenderTexture.width tex =? Frame.width frame)
  || negb (RenderTexture.height tex =? Frame.height frame)
  || negb (PixelFormat_eqb (RenderTexture.format tex) (Frame.format frame))
  = false
  <-> same_layout tex frame.
Proof.
  unfold same_layout.
  rewrite !orb_false_iff, !negb_false_iff, !Z.eqb_eq, PixelFormat_eqb_eq.
  tauto.
Qed.

(** Lines 173-188 alone, on any frame: a matching, created texture takes
    the data in place; any other texture is created anew, after a
    [Destroy] exactly when the layouts differ. *)
Lemma upload_frame_cases (renderer : RenderInstance.t) (frame : Frame.t)
      (n : MediaInput) :
  let tex := internal_tex_ n in
  let fresh := RenderTexture.Create (Frame.width frame) (Frame.height frame)
                 (Frame.format frame) RenderTexture.kSingleBuffer
                 (Frame.data frame) in
  (same_layout tex frame /\ RenderTexture.IsCreated tex = true /\
   upload_frame renderer frame n
   = Done tt (set_internal_tex_ (RenderTexture.Upload tex (Frame.data frame)) n)
          [EvTexUpload])
  \/
  (same_layout tex frame /\ RenderTexture.IsCreated tex = false /\
   upload_frame renderer frame n
   = Done tt (set_internal_tex_ fresh n)
          [EvTexCreate (Frame.width frame) (Frame.height frame) (Frame.format frame)])
  \/
  (~ same_layout tex frame /\
   upload_frame renderer frame n
   = Done tt (set_internal_tex_ fresh n)
          [EvTexDestroy;
           EvTexCreate (Frame.width frame) (Frame.height frame) (Frame.format frame)]).
Proof.
  intros tex fresh. subst tex fresh.
  destruct n as [fi mi to dec cs pl tex ocio].
  pose proof (layout_test tex frame) as Hl.
  unfold upload_frame. unfold_eval.
  destruct (negb (RenderTexture.width tex =? Frame.width frame)
            || negb (RenderTexture.height tex =? Frame.height frame)
            || negb (PixelFormat_eqb (RenderTexture.format tex) (Frame.format frame)))
    eqn:Htest.
  - right; right. split.
    + intros Hs. apply Hl in Hs. discriminate.
    + reflexivity.
  - assert (Hs : same_layout tex frame) by (apply Hl; reflexivity).
    unfold_eval.
    destruct (RenderTexture.IsCreated tex) eqn:Hc; simpl.
    + left. auto.
    + right; left. auto.
Qed.

(** Lines 173-188 always return, with one of three sequences of calls. *)
Lemma upload_frame_returns (renderer : RenderInstance.t) (frame : Frame.t)
      (n : MediaInput) :
  exists tex tr,
    upload_frame renderer frame n = Done tt (set_internal_tex_ tex n) tr /\
    (tr = [EvTexUpload] \/
     tr = [EvTexCreate (Frame.width frame) (Frame.height frame) (Frame.format frame)] \/
     tr = [EvTexDestroy;
           EvTexCreate (Frame.width frame) (Frame.height frame) (Frame.format frame)]).
Proof.
  destruct (upload_frame_cases renderer frame n)
    as [(_ & _ & Hu) | [(_ & _ & Hu) | (_ & Hu)]]; rewrite Hu; eauto 6.
Qed.

(** What lines 173-188 leave in the internal texture: it is created, has
    the frame's layout and data, and a further upload of the same frame
    leaves it as it is. *)
Lemma upload_frame_result (renderer : RenderInstance.t) (frame : Frame.t)
      (n : MediaInput) (tex : RenderTexture.t) (tr : list Event) :
  upload_frame renderer frame n = Done tt (set_internal_tex_ tex n) tr ->
  same_layout tex frame /\
  RenderTexture.IsCreated tex = true /\
  RenderTexture.pixels tex = Frame.data frame /\
  RenderTexture.Upload tex (Frame.data frame) = tex.
Proof.
  intros H.
  destruct (upload_frame_cases renderer frame n)
    as [(Hs & Hc & Hu) | [(Hs & Hc & Hu) | (Hs & Hu)]];
    rewrite Hu in H; inversion H as [[E]]; subst tex.
  - unfold same_layout, RenderTexture.Upload in *. simpl. rewrite Hc. auto.
  - unfold same_layout. simpl. auto.
  - unfold same_layout. simpl. auto.
Qed.

Lemma texture_calls_app (a b : list Event) :
  texture_calls (a ++ b) = texture_calls a ++ texture_calls b.
Proof. apply filter_app. Qed.

(** Lines 190-243 in closed form. *)
Lemma blit_to_output_eq (w : World) (renderer : RenderInstance.t) (n : MediaInput) :
  let p := pipeline_or_default n in
  let target :=
    RenderTexture.Create (RenderInstance.width renderer)
      (RenderInstance.height renderer) (RenderInstance.format renderer)
      RenderTexture.kDoubleBuffer [] in
  blit_to_output w renderer n
  = Done (RenderTexture.Upload target (Blit w p (internal_tex_ n) target))
         (set_pipeline_ (Some p) n)
         [EvOutputCreate (RenderInstance.width renderer)
            (RenderInstance.height renderer) (RenderInstance.format renderer);
          EvAttach; EvFbBind; EvClear; EvTexBind; EvBlit p;
          EvTexRelease; EvDetach; EvFbRelease].
Proof.
  destruct n as [fi mi to dec cs pl tex ocio].
  unfold pipeline_or_default.
  destruct renderer as [[|] ctx rw rh rf], pl as [p|]; reflexivity.
Qed.

(** ** The whole of [Value] *)

(** An evaluation that got its frame, as the sequence of its parts. *)
Lemma Value_parts (w : World) (time : rational) (n n1 n2 : MediaInput)
      (renderer : RenderInstance.t) (frame frame' : Frame.t)
      (tr1 tr2 : list Event) :
  CurrentInstance w = Some renderer ->
  retrieve_frame w time n = Done (Some frame) n1 tr1 ->
  to_reference_space w renderer frame n1 = Done frame' n2 tr2 ->
  exists n3 tr3 out n4 tr4,
    upload_frame renderer frame' n2 = Done tt n3 tr3 /\
    blit_to_output w renderer n3 = Done out n4 tr4 /\
    Value w (texture_output_ n) time n
    = Done (VTexture out) n4 (tr1 ++ tr2 ++ tr3 ++ tr4).
Proof.
  intros Hr H1 H2.
  destruct (upload_frame_cases renderer frame' n2)
    as [(_ & _ & H3) | [(_ & _ & H3) | (_ & H3)]];
    pose proof (blit_to_output_eq w renderer) as H4; cbv zeta in H4;
    (eexists; eexists; eexists; eexists; eexists;
     split; [exact H3 | split; [apply H4 |]]);
    unfold Value;
    rewrite (bind_Done _ _ _ _ _ _ (eq_refl : this n = Done n n []));
    rewrite N.eqb_refl, Hr;
    rewrite (bind_Done _ _ _ _ _ _ H1);
    rewrite (bind_Done _ _ _ _ _ _ H2);
    rewrite (bind_Done _ _ _ _ _ _ H3);
    rewrite (bind_Done _ _ _ _ _ _ (H4 _));
    unfold ret; simpl; rewrite ?app_nil_r; reflexivity.
Qed.

(** Every evaluation has one of the three shapes of [Value_run]. *)
Lemma Value_runs (w : World) (output : NodeParamPtr) (time : rational)
      (n : MediaInput) :
  Value_run w output time n (Value w output time n).
Proof.
  destruct (N.eqb_spec output (texture_output_ n)) as [-> | Hne].
  - destruct (CurrentInstance w) as [renderer |] eqn:Hr.
    + destruct (retrieve_frame_returns w time n) as ([frame |] & n1 & tr1 & H1).
      * destruct (to_reference_space_returns w renderer frame n1)
          as (frame' & tr2 & H2 & Ht2).
        destruct (upload_frame_returns renderer frame'
                    (set_color_service_ (Some (color_service_or_default n1)) n1))
          as (tex & tr3 & H3 & Ht3).
        destruct (Value_parts w time n n1 _ renderer frame frame' tr1 tr2 Hr H1 H2)
          as (n3 & tr3' & out & n4 & tr4 & H3' & H4 & HV).
        rewrite H3 in H3'. inversion H3'; subst n3 tr3'; clear H3'.
        rewrite blit_to_output_eq in H4. cbv zeta in H4.
        inversion H4; subst out n4 tr4; clear H4.
        rewrite HV.
        replace (internal_tex_
                   (set_internal_tex_ tex
                      (set_color_service_ (Some (color_service_or_default n1)) n1)))
          with tex by reflexivity.
        eapply run_texture; eauto.
      * replace (Value w (texture_output_ n) time n) with (Done (VInt 0) n1 tr1).
        { eapply run_no_frame; eauto. }
        unfold Value.
        rewrite (bind_Done _ _ _ _ _ _ (eq_refl : this n = Done n n [])).
        rewrite N.eqb_refl, Hr.
        rewrite (bind_Done _ _ _ _ _ _ H1).
        unfold ret. simpl. rewrite app_nil_r. reflexivity.
    + replace (Value w (texture_output_ n) time n) with (Done (VInt 0) n []).
      { apply run_not_asked. auto. }
      unfold Value, bind, this, ret. rewrite N.eqb_refl, Hr. reflexivity.
  - apply N.eqb_neq in Hne.
    replace (Value w output time n) with (Done (VInt 0) n []).
    { apply run_not_asked. auto. }
    unfold Value, bind, this, ret. rewrite Hne. reflexivity.
Qed.

(** No evaluation goes through a null member pointer: [decoder_],
    [color_service_] and [pipeline_] are each set before they are used. *)
Lemma Value_never_NullDeref (w : World) (output : NodeParamPtr)
      (time : rational) (n : MediaInput) :
  Value w output time n <> NullDeref.
Proof.
  destruct n as [fi mi to dec cs pl tex ocio].
  eval_cases; discriminate.
Qed.

(** An evaluation that returns 0 has not touched the internal texture. *)
Lemma Value_zero_keeps_texture (w : World) (output : NodeParamPtr)
      (time : rational) (n n' : MediaInput) (tr : list Event) :
  Value w output time n = Done (VInt 0) n' tr ->
  internal_tex_ n' = internal_tex_ n /\ texture_calls tr = [].
Proof.
  destruct n as [fi mi to dec cs pl tex ocio].
  eval_cases; intros H; inversion H; subst; simpl; auto.
Qed.

(** ** Other outputs and failed resolutions *)

(** C10.  For every time and every output parameter other than the node's
    texture output, [Value] returns the integer 0; it touches neither the
    node nor any collaborator on the way. *)
Theorem Value_other_output_is_zero (w : World) (output : NodeParamPtr)
        (time : rational) (n : MediaInput) :
  output <> texture_output_ n ->
  Value w output time n = Done (VInt 0) n [].
Proof.
  intros Hneq. apply N.eqb_neq in Hneq.
  unfold Value, bind, this, ret. rewrite Hneq. reflexivity.
Qed.

Lemma Value_other_output_is_zero_witness :
  11%N <> texture_output_ Example.node /\
  Value (Example.world kOnline) 11%N (3 # 4) Example.node
  = Done (VInt 0) Example.node [].
Proof.
  split.
  - discriminate.
  - apply (Value_other_output_is_zero (Example.world kOnline) 11%N (3 # 4)
             Example.node).
    discriminate.
Defined.

(** C1.  On the texture output, at every time: when there is no current
    renderer instance, or the footage input resolves to no footage, or no
    decoder can be created, or the decoder retrieves no frame, [Value]
    returns the integer 0.  It returns: the outcome is [Done], not
    [NullDeref]. *)
Theorem Value_failure_returns_zero (w : World) (time : rational) (n : MediaInput) :
  resolution_fails w n time ->
  exists n' tr, Value w (texture_output_ n) time n = Done (VInt 0) n' tr.
Proof.
  destruct n as [fi mi to dec cs pl tex ocio].
  unfold texture_output_.
  intros [Hr | Hf | footage Hf Hd Hc | footage d Hf Hd Hfr];
    unfold decoder_in_use, with_stream, decoder_ in *.
  - unfold_eval. rewrite N.eqb_refl, Hr. eauto.
  - unfold_eval. rewrite N.eqb_refl, Hf.
    destruct (CurrentInstance w); eauto.
  - subst dec. unfold_eval. rewrite N.eqb_refl, Hf, Hc.
    destruct (CurrentInstance w); eauto.
  - unfold_eval. rewrite N.eqb_refl, Hf.
    destruct (CurrentInstance w); [| eauto].
    destruct dec as [d0 |].
    + injection Hd as ->. unfold_eval.
      destruct (Decoder.stream d) eqn:Hs; unfold_eval.
      * rewrite Hfr. eauto.
      * unfold Decoder.set_stream in *. rewrite Hfr. eauto.
    + rewrite Hd. unfold_eval.
      destruct (Decoder.stream d) eqn:Hs; unfold_eval.
      * rewrite Hfr. eauto.
      * unfold Decoder.set_stream in *. rewrite Hfr. eauto.
Qed.

Lemma Value_failure_returns_zero_witness :
  resolution_fails Example.world_no_footage Example.node (5 # 1) /\
  exists n' tr,
    Value Example.world_no_footage (texture_output_ Example.node) (5 # 1)
          Example.node
    = Done (VInt 0) n' tr.
Proof.
  assert (H : resolution_fails Example.world_no_footage Example.node (5 # 1))
    by (apply no_footage; reflexivity).
  split.
  - exact H.
  - exact (Value_failure_returns_zero Example.world_no_footage (5 # 1)
             Example.node H).
Defined.

(** The four failures are the only ways to 0 on the texture output: when
    none of them occurs, [Value] returns a texture. *)
Lemma Value_resolved_returns_texture (w : World) (time : rational)
      (n : MediaInput) :
  ~ resolution_fails w n time ->
  exists out n' tr,
    Value w (texture_output_ n) time n = Done (VTexture out) n' tr.
Proof.
  intros Hok.
  pose proof (Value_runs w (texture_output_ n) time n) as R.
  remember (Value w (texture_output_ n) time n) as o eqn:E.
  destruct R
    as [[Hne | Hnr] | renderer n1 tr1 _ Hr H1
        | renderer frame n1 tr1 frame' tr2 tex tr3 _ _ _ n2 n3 p target _ _ _ _].
  - rewrite N.eqb_refl in Hne. discriminate.
  - exfalso. apply Hok. apply no_renderer. exact Hnr.
  - exfalso. apply Hok.
    destruct (retrieve_frame_eq w time n) as (tr & Hq).
    rewrite Hq in H1. injection H1 as Hf _ _.
    unfold frame_at in Hf.
    destruct (footage_value w time) as [footage |] eqn:Hfv.
    + destruct (decoder_in_use w n footage) as [d |] eqn:Hd.
      * eapply no_frame; eauto.
      * unfold decoder_in_use in Hd.
        destruct (decoder_ n) eqn:Hdn; [discriminate |].
        eapply no_decoder_created; eauto.
    + apply no_footage. exact Hfv.
  - eauto.
Qed.

(** ** Where the colour transform is made *)

(** Online, an evaluation that returns a texture has converted the frame to
    RGBA32F and transformed it on the CPU, in this order, before its first
    texture call; the blit adds no transform unless an OCIO pipeline was
    cached beforehand. *)
Lemma Value_online_transforms_on_cpu (w : World) (time : rational)
      (n n1 : MediaInput) (renderer : RenderInstance.t) (frame : Frame.t)
      (tr1 : list Event) :
  CurrentInstance w = Some renderer ->
  RenderInstance.mode renderer = kOnline ->
  retrieve_frame w time n = Done (Some frame) n1 tr1 ->
  let c := color_service_or_default n in
  let frame' := ConvertFrame w c (ConvertPixelFormat w frame PIX_FMT_RGBA32F) in
  exists out n' tr3,
    Value w (texture_output_ n) time n
    = Done (VTexture out) n'
        (tr1 ++ [EvConvertPixelFormat PIX_FMT_RGBA32F; EvConvertFrame c] ++ tr3) /\
    texture_calls tr1 = [] /\
    RenderTexture.pixels (internal_tex_ n') = Frame.data frame'.
Proof.
  intros Hr Hm H1 c frame'.
  destruct (retrieve_frame_frame _ _ _ _ _ _ H1) as (_ & _ & Hcs & _ & Hc1).
  pose proof (to_reference_space_online w renderer frame n1 Hm) as H2.
  cbv zeta in H2.
  assert (Hc : color_service_or_default n1 = c).
  { unfold c, color_service_or_default. rewrite Hcs. reflexivity. }
  rewrite Hc in H2.
  destruct (Value_parts w time n n1 _ renderer frame _ tr1 _ Hr H1 H2)
    as (n3 & tr3 & out & n4 & tr4 & H3 & H4 & HV).
  exists out, n4, (tr3 ++ tr4). split; [exact HV | split; [exact Hc1 |]].
  rewrite blit_to_output_eq in H4. cbv zeta in H4.
  inversion H4; subst out n4 tr4; clear H4.
  destruct (upload_frame_cases renderer frame' (set_color_service_ (Some c) n1))
    as [(_ & _ & Hu) | [(_ & _ & Hu) | (_ & Hu)]];
    fold frame' in H3; rewrite Hu in H3; inversion H3; subst n3 tr3;
    destruct n1; reflexivity.
Qed.

(** Offline, from a node with no OCIO pipeline cached, an evaluation that
    returns a texture has uploaded the decoder's frame as it is, and has
    made no colour transform at all: none on the CPU, and the blit goes
    through the default pipeline. *)
Lemma Value_offline_transforms_nowhere (w : World) (time : rational)
      (n n1 : MediaInput) (renderer : RenderInstance.t) (frame : Frame.t)
      (tr1 : list Event) :
  CurrentInstance w = Some renderer ->
  RenderInstance.mode renderer = kOffline ->
  pipeline_ n <> Some OCIOPipeline ->
  retrieve_frame w time n = Done (Some frame) n1 tr1 ->
  exists out n' tr,
    Value w (texture_output_ n) time n = Done (VTexture out) n' tr /\
    RenderTexture.pixels (internal_tex_ n') = Frame.data frame /\
    pipeline_ n' = Some DefaultPipeline /\
    In (EvBlit DefaultPipeline) tr /\
    color_transforms tr = [].
Proof.
  intros Hr Hm Hp H1.
  destruct (retrieve_frame_frame _ _ _ _ _ _ H1) as (_ & Hp1 & _ & _ & _).
  pose proof (to_reference_space_offline w renderer frame n1 Hm) as H2.
  destruct (Value_parts w time n n1 _ renderer frame _ tr1 _ Hr H1 H2)
    as (n3 & tr3 & out & n4 & tr4 & H3 & H4 & HV).
  exists out, n4, (tr1 ++ [] ++ tr3 ++ tr4). split; [exact HV |].
  rewrite blit_to_output_eq in H4. cbv zeta in H4.
  inversion H4; subst out n4 tr4; clear H4.
  assert (Hpd : forall m, pipeline_ m = pipeline_ n ->
                          pipeline_or_default m = DefaultPipeline).
  { intros m Hm'. unfold pipeline_or_default. rewrite Hm'.
    destruct (pipeline_ n) as [[|]|]; congruence. }
  assert (Hct1 : color_transforms tr1 = []).
  { clear - H1. revert H1. destruct n as [fi mi to dec cs pl tex ocio].
    eval_cases; intros H; inversion H; reflexivity. }
  unfold color_transforms in *.
  destruct (upload_frame_cases renderer frame
              (set_color_service_ (Some (color_service_or_default n1)) n1))
    as [(_ & _ & Hu) | [(_ & _ & Hu) | (_ & Hu)]];
    rewrite Hu in H3; inversion H3; subst n3 tr3;
    (rewrite Hpd by (destruct n1; exact Hp1));
    (split; [destruct n1; reflexivity |]);
    (split; [destruct n1; reflexivity |]);
    (split; [repeat (apply in_or_app; right); simpl; auto 10 |]);
    rewrite !filter_app, Hct1; reflexivity.
Qed.

(** No evaluation caches an OCIO pipeline: a node constructed by
    [MediaInput_new] never holds one, whatever calls it has served. *)
Lemma Value_never_caches_OCIOPipeline (w : World) (output : NodeParamPtr)
      (time : rational) (n : MediaInput) :
  pipeline_ n <> Some OCIOPipeline ->
  pipeline_ (self_after n (Value w output time n)) <> Some OCIOPipeline.
Proof.
  destruct n as [fi mi to dec cs pl tex ocio].
  eval_cases; simpl; intros H; first [exact H | discriminate].
Qed.

(** C2, at a freshly constructed node with an offline renderer, footage,
    a decoder and a frame: the evaluation returns a texture; no colour
    transform is made on the CPU, and the blit goes through the default
    pipeline, not through an OCIO pipeline, so none is made on the GPU
    either.  In this world the default pipeline copies the bound texture,
    and the pixels returned are those of the decoder's frame. *)
Theorem Value_offline_blits_untransformed :
  exists out n' tr,
    Value (Example.world kOffline) (texture_output_ Example.node) (1 # 2)
          Example.node
    = Done (VTexture out) n' tr /\
    RenderTexture.pixels out = Frame.data Example.frame /\
    pipeline_ n' = Some DefaultPipeline /\
    In (EvBlit DefaultPipeline) tr /\
    ~ In (EvBlit OCIOPipeline) tr /\
    color_transforms tr = [].
Proof.
  eexists; eexists; eexists.
  split; [vm_compute; reflexivity |].
  repeat split; try reflexivity.
  - simpl. auto 20.
  - simpl. intuition discriminate.
Qed.

(** ** When the internal texture is recreated *)

(** C7.  Take an evaluation of the texture output whose frame, as it
    reaches line 173 (retrieved, and converted when online), is [frame'].
    The evaluation calls [Destroy] on the internal texture only if the
    width, height or pixel format of [frame'] differs from the texture's,
    and then creates the texture anew; when the three match and the texture
    is created, the only texture call is [Upload], and the texture keeps its
    identity and layout and holds the frame's data. *)
Theorem Value_recreates_texture_only_on_mismatch
        (w : World) (time : rational) (n n1 n2 : MediaInput)
        (renderer : RenderInstance.t) (frame frame' : Frame.t)
        (tr1 tr2 : list Event) :
  CurrentInstance w = Some renderer ->
  retrieve_frame w time n = Done (Some frame) n1 tr1 ->
  to_reference_space w renderer frame n1 = Done frame' n2 tr2 ->
  let o := Value w (texture_output_ n) time n in
  let tex := internal_tex_ n in
  (In EvTexDestroy (trace_of o) -> ~ same_layout tex frame') /\
  (~ same_layout tex frame' ->
   texture_calls (trace_of o)
   = [EvTexDestroy;
      EvTexCreate (Frame.width frame') (Frame.height frame') (Frame.format frame')]) /\
  (same_layout tex frame' -> RenderTexture.IsCreated tex = true ->
   texture_calls (trace_of o) = [EvTexUpload] /\
   internal_tex_ (self_after n o)
   = RenderTexture.Upload tex (Frame.data frame')).
Proof.
  intros Hr H1 H2 o tex. subst o tex.
  destruct (Value_parts w time n n1 n2 renderer frame frame' tr1 tr2 Hr H1 H2)
    as (n3 & tr3 & out & n4 & tr4 & H3 & H4 & HV).
  rewrite HV. simpl trace_of. simpl self_after.
  destruct (retrieve_frame_frame _ _ _ _ _ _ H1) as (Ht1 & _ & _ & _ & Hc1).
  destruct (to_reference_space_frame _ _ _ _ _ _ _ H2) as (Ht2 & _ & _ & _ & Hc2).
  assert (Htex : internal_tex_ n2 = internal_tex_ n) by congruence.
  rewrite blit_to_output_eq in H4. cbv zeta in H4.
  inversion H4; subst out n4 tr4; clear H4.
  assert (Hcalls : texture_calls (tr1 ++ tr2 ++ tr3 ++
            [EvOutputCreate (RenderInstance.width renderer)
               (RenderInstance.height renderer) (RenderInstance.format renderer);
             EvAttach; EvFbBind; EvClear; EvTexBind;
             EvBlit (pipeline_or_default n3);
             EvTexRelease; EvDetach; EvFbRelease])
          = texture_calls tr3).
  { rewrite !texture_calls_app, Hc1, Hc2. simpl. apply app_nil_r. }
  assert (Hin : In EvTexDestroy
                   (tr1 ++ tr2 ++ tr3 ++
                    [EvOutputCreate (RenderInstance.width renderer)
                       (RenderInstance.height renderer)
                       (RenderInstance.format renderer);
                     EvAttach; EvFbBind; EvClear; EvTexBind;
                     EvBlit (pipeline_or_default n3);
                     EvTexRelease; EvDetach; EvFbRelease]) ->
                In EvTexDestroy (texture_calls tr3)).
  { intros Hd. rewrite <- Hcalls. apply filter_In. split; [exact Hd | reflexivity]. }
  rewrite Hcalls.
  destruct (upload_frame_cases renderer frame' n2)
    as [(Hs & Hc & Hu) | [(Hs & Hc & Hu) | (Hs & Hu)]];
    rewrite Htex in *; rewrite Hu in H3; inversion H3; subst n3 tr3; clear H3.
  - split; [| split].
    + intros Hd. apply Hin in Hd. simpl in Hd. intuition discriminate.
    + intros Hns. contradiction.
    + intros _ _. split; [reflexivity |].
      destruct n2; reflexivity.
  - split; [| split].
    + intros Hd. apply Hin in Hd. simpl in Hd. intuition discriminate.
    + intros Hns. contradiction.
    + intros _ Hc'. congruence.
  - split; [| split].
    + intros _. exact Hs.
    + intros _. reflexivity.
    + intros Hs'. contradiction.
Qed.

Lemma Value_recreates_texture_only_on_mismatch_witness :
  same_layout (internal_tex_ Example.node_warm) Example.frame /\
  RenderTexture.IsCreated (internal_tex_ Example.node_warm) = true /\
  texture_calls
    (trace_of (Value (Example.world kOffline) 12%N (1 # 2) Example.node_warm))
  = [EvTexUpload] /\
  internal_tex_
    (self_after Example.node_warm
       (Value (Example.world kOffline) 12%N (1 # 2) Example.node_warm))
  = RenderTexture.Upload (internal_tex_ Example.node_warm)
      (Frame.data Example.frame).
Proof.
  assert (Hs : same_layout (internal_tex_ Example.node_warm) Example.frame)
    by (repeat split).
  split; [exact Hs |]. split; [reflexivity |].
  exact (proj2 (proj2
           (Value_recreates_texture_only_on_mismatch
              (Example.world kOffline) (1 # 2)
              Example.node_warm Example.node_warm Example.node_warm
              (Example.renderer kOffline) Example.frame Example.frame
              [EvRetrieve (1 # 2)] []
              eq_refl eq_refl eq_refl))
           Hs eq_refl).
Defined.

(** ** Binds and releases *)

(** C9.  Every evaluation returns, and on return whatever it has bound or
    attached it has released or detached again: counted from any state of
    the bindings, its calls leave every count where it was and release
    nothing that is not held.  Only an evaluation that returns a texture
    acquires anything at all; one that returns 0 has bound and attached
    nothing, so no failure path holds a framebuffer binding. *)
Theorem Value_releases_what_it_binds (w : World) (output : NodeParamPtr)
        (time : rational) (n : MediaInput) :
  exists v n' tr,
    Value w output time n = Done v n' tr /\
    (forall b, bindings_after b tr = Some b) /\
    ((v = VInt 0 /\ acquisitions tr = []) \/
     (exists tex, v = VTexture tex) /\
     acquisitions tr = [EvAttach; EvFbBind; EvTexBind]).
Proof.
  destruct n as [fi mi to dec cs pl tex ocio].
  eval_cases;
    (eexists; eexists; eexists;
     split; [reflexivity | split; [intros [tb fa fbb]; reflexivity |]]);
    first [left; split; reflexivity
          | right; split; [eexists; reflexivity | reflexivity]].
Qed.

(** ** The decoder and its stream *)

(** One evaluation, as far as the decoder goes. *)
Lemma Value_decoder_step (w : World) (output : NodeParamPtr)
      (time : rational) (n : MediaInput) :
  let o := Value w output time n in
  let tr := trace_of o in
  let n' := self_after n o in
  set_stream_only_unbound tr /\
  (List.length (filter binds_stream tr) <= 1)%nat /\
  (filter binds_stream tr <> [] -> decoder_bound n') /\
  (decoder_ n <> None ->
   filter is_CreateFromID tr = [] /\ decoder_ n' <> None) /\
  (decoder_bound n ->
   decoder_ n' = decoder_ n /\
   filter is_SetStream tr = [] /\ filter is_CreateFromID tr = []).
Proof.
  cbv zeta.
  pose proof (retrieve_frame_decoder w time n) as D. cbv zeta in D.
  destruct (Value_runs w output time n)
    as [_ | renderer n1 tr1 _ _ H1
        | renderer frame n1 tr1 frame' tr2 tex tr3 _ _ H1 n2 n3 p target _ _ Ht2 Ht3].
  - simpl. unfold set_stream_only_unbound. simpl.
    repeat split; auto; try lia; try contradiction.
  - rewrite H1 in D. exact D.
  - rewrite H1 in D. simpl in D. simpl trace_of. simpl self_after.
    assert (Hdec : decoder_ (set_pipeline_ (Some p) n3) = decoder_ n1)
      by (destruct n1; reflexivity).
    assert (Hbound : decoder_bound (set_pipeline_ (Some p) n3) <-> decoder_bound n1)
      by (unfold decoder_bound; rewrite Hdec; tauto).
    set (rest := tr2 ++ tr3 ++ _).
    assert (Hrest : filter is_SetStream rest = [] /\
                    filter is_CreateFromID rest = [] /\
                    filter binds_stream rest = []).
    { subst rest.
      destruct Ht2 as [-> | ->]; destruct Ht3 as [-> | [-> | ->]];
        repeat split; reflexivity. }
    destruct Hrest as (Hr1 & Hr2 & Hr3).
    destruct D as (D1 & D2 & D3 & D4 & D5).
    rewrite !filter_app, Hr1, Hr2, Hr3, !app_nil_r, Hdec, Hbound.
    repeat split; auto; try (apply D4; assumption); try (apply D5; assumption).
    intros d s Hin. apply in_app_or in Hin. destruct Hin as [Hin | Hin].
    + exact (D1 d s Hin).
    + exfalso.
      assert (Hf : In (EvSetStream d s) (filter is_SetStream rest))
        by (apply filter_In; split; [exact Hin | reflexivity]).
      rewrite Hr1 in Hf. exact Hf.
Qed.

(** The decoder over any run of evaluations. *)
Lemma evaluate_all_decoder (rqs : list Request) :
  forall n,
    let n' := fst (evaluate_all rqs n) in
    let tr := snd (evaluate_all rqs n) in
    set_stream_only_unbound tr /\
    (decoder_ n <> None -> filter is_CreateFromID tr = [] /\ decoder_ n' <> None) /\
    (decoder_bound n ->
     decoder_ n' = decoder_ n /\ filter is_SetStream tr = [] /\
     filter binds_stream tr = []) /\
    (List.length (filter binds_stream tr) <= 1)%nat.
Proof.
  induction rqs as [| r rest IH]; intros n; cbv zeta.
  - simpl. unfold set_stream_only_unbound. simpl.
    repeat split; auto; try contradiction.
  - simpl.
    pose proof (Value_decoder_step (rq_world r) (rq_output r) (rq_time r) n) as S1.
    cbv zeta in S1.
    set (o := Value (rq_world r) (rq_output r) (rq_time r) n) in *.
    specialize (IH (self_after n o)). cbv zeta in IH.
    destruct (evaluate_all rest (self_after n o)) as [n' tr] eqn:He.
    simpl in *.
    destruct S1 as (S1 & S2 & S3 & S4 & S5).
    destruct IH as (I1 & I2 & I3 & I4).
    split; [| split; [| split]].
    + intros d s Hin. apply in_app_or in Hin. destruct Hin as [Hin | Hin].
      * exact (S1 d s Hin).
      * exact (I1 d s Hin).
    + intros Hd. destruct (S4 Hd) as (Hc & Hd').
      destruct (I2 Hd') as (Hc' & Hd'').
      rewrite filter_app, Hc, Hc'. auto.
    + intros Hb. destruct (S5 Hb) as (Hd & Hs & _).
      assert (Hb' : decoder_bound (self_after n o))
        by (unfold decoder_bound in *; rewrite Hd; exact Hb).
      destruct (I3 Hb') as (Hd' & Hs' & Hbs').
      rewrite !filter_app, Hs, Hs', Hbs'.
      split; [congruence | split; [reflexivity |]].
      rewrite app_nil_r.
      destruct (filter binds_stream (trace_of o)) as [| e l] eqn:Hf; [reflexivity |].
      exfalso.
      assert (Hin : In e (filter binds_stream (trace_of o))) by (rewrite Hf; left; reflexivity).
      apply filter_In in Hin. destruct Hin as (Hin & He').
      destruct e; try discriminate He'.
      assert (Hin' : In (EvSetStream before s) (filter is_SetStream (trace_of o)))
        by (apply filter_In; split; [exact Hin | reflexivity]).
      rewrite Hs in Hin'. exact Hin'.
    + rewrite filter_app, length_app.
      destruct (filter binds_stream (trace_of o)) as [| e l] eqn:Hf.
      * simpl. exact I4.
      * assert (Hb' : decoder_bound (self_after n o))
          by (apply S3; discriminate).
        destruct (I3 Hb') as (_ & _ & Hbs'). rewrite Hbs'. simpl in *. lia.
Qed.

(** C8.  Over any run of evaluations, from any state of the node and
    whatever the world is at each call: [CreateFromID] is called only while
    the node holds no decoder; every [set_stream] call is made on a decoder
    that has no stream; at most one [set_stream] call gives the decoder a
    stream; and once the node holds a decoder with a stream, it keeps that
    decoder and makes no [set_stream] call at all. *)
Theorem decoder_bound_to_stream_once (rqs : list Request) (n : MediaInput) :
  let n' := fst (evaluate_all rqs n) in
  let tr := snd (evaluate_all rqs n) in
  (decoder_ n <> None -> filter is_CreateFromID tr = []) /\
  set_stream_only_unbound tr /\
  (List.length (filter binds_stream tr) <= 1)%nat /\
  (decoder_bound n -> decoder_ n' = decoder_ n /\ filter is_SetStream tr = []).
Proof.
  cbv zeta.
  destruct (evaluate_all_decoder rqs n) as (H1 & H2 & H3 & H4).
  split; [| split; [| split]].
  - intros Hd. apply H2. exact Hd.
  - exact H1.
  - exact H4.
  - intros Hb. destruct (H3 Hb) as (Ha & Hs & _). auto.
Qed.

Lemma decoder_bound_to_stream_once_witness :
  decoder_bound Example.node_warm /\
  decoder_ (fst (evaluate_all Example.requests Example.node_warm))
  = decoder_ Example.node_warm /\
  filter is_SetStream (snd (evaluate_all Example.requests Example.node_warm)) = [].
Proof.
  assert (Hb : decoder_bound Example.node_warm)
    by (eexists; eexists; split; reflexivity).
  split; [exact Hb |].
  exact (proj2 (proj2 (proj2
           (decoder_bound_to_stream_once Example.requests Example.node_warm)))
           Hb).
Defined.

(** ** Two evaluations in a row *)

(** C6.  Two calls of [Value] in a row, for the same output at the same
    time in the same world, return the same value: the second call runs on
    the node as the first left it (decoder created and bound, colour service
    and pipeline cached, internal texture created), and none of that shows
    in what is returned.  Both calls return.  A texture is compared by its
    layout and pixels. *)
Theorem Value_twice_same_output (w : World) (output : NodeParamPtr)
        (time : rational) (n : MediaInput) :
  let first := Value w output time n in
  let second := Value w output time (self_after n first) in
  exists v, returned first = Some v /\ returned second = Some v.
Proof.
  cbv zeta.
  pose proof (Value_runs w output time n) as R.
  remember (Value w output time n) as first eqn:E1.
  destruct R
    as [_ | renderer n1 tr1 Hout Hr H1
        | renderer frame n1 tr1 frame' tr2 tex tr3 Hout Hr H1 n2 n3 p target H2 H3 _ _].
  - simpl. rewrite <- E1. exists (VInt 0). auto.
  - simpl. exists (VInt 0). split; [reflexivity |].
    destruct (retrieve_frame_eq w time n) as (tr & Hq).
    rewrite Hq in H1. injection H1 as Hf Hn1 Htr.
    assert (Hd : decoder_ n1 = decoder_after w n time)
      by (rewrite <- Hn1; destruct n; reflexivity).
    destruct (frame_at_again w time n n1 Hd) as (Hf' & _).
    pose proof (Value_runs w output time n1) as R2.
    destruct R2
      as [_ | ? ? ? _ _ _ | ? frame2 ? ? ? ? ? ? _ _ H1' ? ? ? ? _ _ _ _];
      try reflexivity.
    exfalso.
    destruct (retrieve_frame_eq w time n1) as (tr' & Hq').
    rewrite Hq' in H1'. injection H1' as Hf2 Hn2 Htr2.
    congruence.
  - simpl.
    eexists. split; [reflexivity |].
    set (nf := set_pipeline_ (Some p) n3).
    destruct (retrieve_frame_eq w time n) as (tr & Hq).
    rewrite Hq in H1. injection H1 as Hf Hn1 Htr.
    assert (Hd : decoder_ nf = decoder_after w n time)
      by (subst nf n3 n2; rewrite <- Hn1; destruct n; reflexivity).
    assert (Hto : texture_output_ nf = texture_output_ n)
      by (subst nf n3 n2; rewrite <- Hn1; destruct n; reflexivity).
    assert (Hcsf : color_service_ nf = Some (color_service_or_default n1))
      by (subst nf n3 n2; destruct n1; reflexivity).
    assert (Htexf : internal_tex_ nf = tex)
      by (subst nf n3 n2; destruct n1; reflexivity).
    assert (Hpf : pipeline_ nf = Some p)
      by (subst nf; destruct n3; reflexivity).
    destruct (frame_at_again w time n nf Hd) as (Hf' & _).
    destruct (upload_frame_result _ _ _ _ _ H3) as (Hl & Hc & _ & Hup).
    clearbody nf.
    pose proof (Value_runs w output time nf) as R2.
    destruct R2
      as [[Hne | Hnr] | ? m1 ? _ _ H1'
          | renderer2 frame2 m1 trm1 frame2' trm2 tex2 trm3 _ Hr2 H1' m2 m3 p2
              target2 H2' H3' _ _].
    + exfalso. rewrite Hout, <- Hto, N.eqb_refl in Hne. discriminate.
    + congruence.
    + exfalso.
      destruct (retrieve_frame_eq w time nf) as (tr' & Hq').
      rewrite Hq' in H1'. injection H1' as Hf2 _ _. congruence.
    + simpl.
      assert (renderer2 = renderer) by congruence. subst renderer2.
      destruct (retrieve_frame_eq w time nf) as (tr' & Hq').
      rewrite Hq' in H1'. injection H1' as Hf2 Hm1 _.
      assert (frame2 = frame) by congruence. subst frame2.
      assert (Hcs : color_service_or_default m1 = color_service_or_default n1).
      { rewrite <- Hm1. unfold color_service_or_default.
        destruct nf; simpl in *. rewrite Hcsf. reflexivity. }
      assert (Hf'' : frame2' = frame').
      { destruct (RenderInstance.mode renderer) eqn:Hm.
        - rewrite (to_reference_space_offline _ _ _ _ Hm) in H2.
          rewrite (to_reference_space_offline _ _ _ _ Hm) in H2'.
          injection H2 as <- _. injection H2' as <- _. reflexivity.
        - rewrite (to_reference_space_online _ _ _ _ Hm) in H2.
          rewrite (to_reference_space_online _ _ _ _ Hm) in H2'.
          cbv zeta in H2, H2'. rewrite Hcs in H2'.
          injection H2 as <- _. injection H2' as <- _. reflexivity. }
      subst frame2'.
      assert (Htex : internal_tex_ m2 = tex).
      { subst m2. rewrite <- Hm1. destruct nf; simpl in *. exact Htexf. }
      assert (Htex2 : tex2 = tex).
      { destruct (upload_frame_cases renderer frame' m2)
          as [(_ & _ & Hu) | [(_ & Hc' & _) | (Hs' & _)]].
        - fold m3 in H3'. rewrite Hu in H3'. injection H3' as E.
          subst m2. simpl in Htex. rewrite Htex, Hup in E. congruence.
        - rewrite Htex in Hc'. congruence.
        - rewrite Htex in Hs'. contradiction. }
      subst tex2.
      assert (Hp : p2 = p).
      { subst p2 m3 m2. rewrite <- Hm1.
        unfold pipeline_or_default. destruct nf; simpl in *.
        rewrite Hpf. reflexivity. }
      rewrite Hp. reflexivity.
Qed.

(** The node's members do change over the first of two evaluations, and
    the calls made differ: the first creates the decoder, binds stream 0 and
    creates the texture, the second only retrieves and uploads. *)
Example second_evaluation_reuses_members :
  let w := Example.world kOffline in
  let first := Value w 12%N (1 # 2) Example.node in
  let second := Value w 12%N (1 # 2) (self_after Example.node first) in
  self_after Example.node first <> Example.node /\
  trace_of first
  = [EvCreateFromID "ffmpeg"; EvSetStream (Decoder.mk "ffmpeg" None) (Some 7%N);
     EvRetrieve (1 # 2); EvTexDestroy; EvTexCreate 4 2 PIX_FMT_RGBA8;
     EvOutputCreate 16 9 PIX_FMT_RGBA16F; EvAttach; EvFbBind; EvClear;
     EvTexBind; EvBlit DefaultPipeline; EvTexRelease; EvDetach; EvFbRelease] /\
  trace_of second
  = [EvRetrieve (1 # 2); EvTexUpload;
     EvOutputCreate 16 9 PIX_FMT_RGBA16F; EvAttach; EvFbBind; EvClear;
     EvTexBind; EvBlit DefaultPipeline; EvTexRelease; EvDetach; EvFbRelease] /\
  returned second = returned first.
Proof.
  cbv zeta. repeat split; try reflexivity.
  vm_compute. discriminate.
Qed.

(** * Properties of the audio render backend *)

Local Open Scope Q_scope.

Lemma Qlt_bool_iff (x y : Q) : Qlt_bool x y = true <-> x < y.
Proof.
  unfold Qlt_bool. rewrite negb_true_iff.
  split.
  - intros H. apply Qnot_le_lt. intros Hle.
    apply Qle_bool_iff in Hle. congruence.
  - intros H. destruct (Qle_bool y x) eqn:E; [| reflexivity].
    apply Qle_bool_iff in E. exfalso. exact (Qlt_not_le _ _ H E).
Qed.

Lemma RangesOverlap_iff (a b : TimeRange.t) :
  AudioRenderBackend.RangesOverlap a b = true
  <-> TimeRange.start a < TimeRange.end_ b /\ TimeRange.start b < TimeRange.end_ a.
Proof.
  unfold AudioRenderBackend.RangesOverlap.
  rewrite andb_true_iff, !Qlt_bool_iff. tauto.
Qed.

Lemma adjacent_iff (a b : TimeRange.t) :
  AudioRenderBackend.adjacent a b = true
  <-> TimeRange.end_ a == TimeRange.start b \/ TimeRange.end_ b == TimeRange.start a.
Proof.
  unfold AudioRenderBackend.adjacent.
  rewrite orb_true_iff, !Qeq_bool_iff. tauto.
Qed.

(** C3.  [RangesOverlap a b] is true exactly when [a.start < b.end] and
    [b.start < a.end].  Whenever it is true, or [a] and [b] are exactly
    adjacent, [CombineRange a b] is the one range
    [[min(a.start,b.start), max(a.end,b.end))]; that range contains [a] and
    contains [b], and does not reach beyond the least start and the
    greatest end. *)
Theorem CombineRange_overlapping (a b : TimeRange.t) :
  (AudioRenderBackend.RangesOverlap a b = true
   <-> TimeRange.start a < TimeRange.end_ b /\
       TimeRange.start b < TimeRange.end_ a) /\
  (AudioRenderBackend.RangesOverlap a b = true \/
   AudioRenderBackend.adjacent a b = true ->
   exists r,
     AudioRenderBackend.CombineRange a b = Some r /\
     r = TimeRange.mk (Qmin (TimeRange.start a) (TimeRange.start b))
                      (Qmax (TimeRange.end_ a) (TimeRange.end_ b)) /\
     TimeRange.contains r a /\
     TimeRange.contains r b /\
     Qmin (TimeRange.start a) (TimeRange.start b) <= TimeRange.start r /\
     TimeRange.end_ r <= Qmax (TimeRange.end_ a) (TimeRange.end_ b)).
Proof.
  split; [apply RangesOverlap_iff |].
  intros H.
  assert (Hc : AudioRenderBackend.RangesOverlap a b
               || AudioRenderBackend.adjacent a b = true)
    by (apply orb_true_iff; exact H).
  eexists. unfold AudioRenderBackend.CombineRange. rewrite Hc.
  split; [reflexivity | split; [reflexivity |]].
  unfold TimeRange.contains. simpl.
  repeat split;
    auto using Q.le_min_l, Q.le_min_r, Q.le_max_l, Q.le_max_r, Qle_refl.
Qed.

Lemma CombineRange_overlapping_witness :
  AudioRenderBackend.adjacent AudioExample.r_5_10 AudioExample.r_10_15 = true /\
  AudioRenderBackend.CombineRange AudioExample.r_5_10 AudioExample.r_10_15
  = Some (TimeRange.mk (5 # 1) (15 # 1)).
Proof.
  split; [reflexivity |].
  destruct (proj2 (CombineRange_overlapping AudioExample.r_5_10 AudioExample.r_10_15)
                  (or_intror eq_refl))
    as (r & Hr & Heq & _).
  rewrite Hr, Heq. reflexivity.
Defined.

(** The ranges of the spec's examples: [[5,10)] and [[10,15)] are adjacent
    and combine to [[5,15)]; [[0,5)] and [[3,8)] overlap and combine to
    [[0,8)]; [[0,5)] and [[10,15)] neither overlap nor touch, and the call is
    rejected. *)
Example CombineRange_examples :
  AudioRenderBackend.RangesOverlap AudioExample.r_5_10 AudioExample.r_10_15 = false /\
  AudioRenderBackend.CombineRange AudioExample.r_5_10 AudioExample.r_10_15
  = Some (TimeRange.mk (5 # 1) (15 # 1)) /\
  AudioRenderBackend.RangesOverlap AudioExample.r_0_5 AudioExample.r_3_8 = true /\
  AudioRenderBackend.CombineRange AudioExample.r_0_5 AudioExample.r_3_8
  = Some (TimeRange.mk (0 # 1) (8 # 1)) /\
  AudioRenderBackend.CombineRange AudioExample.r_0_5 AudioExample.r_10_15 = None.
Proof. repeat split. Qed.

(** The combined range is the union: with valid ranges that overlap or are
    adjacent, a time lies in it exactly when it lies in [a] or in [b]. *)
Lemma CombineRange_is_union (a b r : TimeRange.t) (x : rational) :
  TimeRange.valid a -> TimeRange.valid b ->
  AudioRenderBackend.CombineRange a b = Some r ->
  (TimeRange.covers r x <-> TimeRange.covers a x \/ TimeRange.covers b x).
Proof.
  unfold TimeRange.valid, TimeRange.covers, AudioRenderBackend.CombineRange.
  intros Va Vb.
  destruct (AudioRenderBackend.RangesOverlap a b || AudioRenderBackend.adjacent a b)
    eqn:Hc; [| discriminate].
  intros H. injection H as <-. simpl.
  apply orb_true_iff in Hc. rewrite RangesOverlap_iff, adjacent_iff in Hc.
  destruct a as [sa ea], b as [sb eb]; simpl in *.
  destruct (Q.min_spec_le sa sb) as [(Hm1 & Hm2) | (Hm1 & Hm2)];
    destruct (Q.max_spec_le ea eb) as [(HM1 & HM2) | (HM1 & HM2)];
    rewrite Hm2, HM2;
    destruct (Qlt_le_dec x ea), (Qlt_le_dec x eb),
             (Qlt_le_dec x sa), (Qlt_le_dec x sb);
    lra.
Qed.

(** C5.  [SetParameters] on a backend in the Rendering state fails with the
    illegal-state condition and returns the backend as it was, so the
    parameters set before are still in place. *)
Theorem SetParameters_while_rendering (b : AudioRenderBackend.t)
        (params : AudioRenderBackend.AudioRenderingParams) :
  AudioRenderBackend.state b = AudioRenderBackend.Rendering ->
  AudioRenderBackend.SetParameters b params
  = (b, Some AudioRenderBackend.IllegalState) /\
  AudioRenderBackend.params_ (fst (AudioRenderBackend.SetParameters b params))
  = AudioRenderBackend.params_ b.
Proof.
  intros Hs. unfold AudioRenderBackend.SetParameters. rewrite Hs. auto.
Qed.

Lemma SetParameters_while_rendering_witness :
  AudioRenderBackend.state AudioExample.rendering = AudioRenderBackend.Rendering /\
  AudioRenderBackend.SetParameters AudioExample.rendering AudioExample.params_44k
  = (AudioExample.rendering, Some AudioRenderBackend.IllegalState) /\
  AudioRenderBackend.params_
    (fst (AudioRenderBackend.SetParameters AudioExample.rendering
            AudioExample.params_44k))
  = AudioExample.params_48k.
Proof.
  split; [reflexivity |].
  exact (SetParameters_while_rendering AudioExample.rendering
           AudioExample.params_44k eq_refl).
Defined.

(** A stopped backend takes the new parameters. *)
Lemma SetParameters_while_stopped (b : AudioRenderBackend.t)
      (params : AudioRenderBackend.AudioRenderingParams) :
  AudioRenderBackend.state b = AudioRenderBackend.Stopped ->
  snd (AudioRenderBackend.SetParameters b params) = None /\
  AudioRenderBackend.params_ (fst (AudioRenderBackend.SetParameters b params))
  = params.
Proof.
  intros Hs. unfold AudioRenderBackend.SetParameters. rewrite Hs. auto.
Qed.

(** Once the render has finished, the backend takes new parameters again. *)
Lemma SetParameters_after_finish (b : AudioRenderBackend.t)
      (params : AudioRenderBackend.AudioRenderingParams) :
  AudioRenderBackend.SetParameters (AudioRenderBackend.FinishRender b) params
  = (AudioRenderBackend.mk AudioRenderBackend.Stopped params
       (AudioRenderBackend.pcm_data_ b) (AudioRenderBackend.dirty b),
     None).
Proof. reflexivity. Qed.

(** * Properties of the rest of the media node *)

Local Open Scope Z_scope.

(** ** Release *)

(** [Release] in closed form on a node whose [ocio_texture_] is 0. *)
Lemma Release_eq (ocio_ctx_ : option Context) (n : MediaInput) :
  ocio_texture_ n = 0%N ->
  Release ocio_ctx_ n
  = Done []
      (mkMediaInput (footage_input_ n) (matrix_input_ n) (texture_output_ n)
         None None None (RenderTexture.Destroy (internal_tex_ n)) 0%N)
      [EvTexDestroy].
Proof.
  destruct n as [fi mi to dec cs pl tex ocio]. simpl. intros ->. reflexivity.
Qed.

(** [Value] leaves [ocio_texture_] and the three parameters alone. *)
Lemma Value_keeps_ocio_texture (w : World) (output : NodeParamPtr)
      (time : rational) (n : MediaInput) :
  exists v n' tr,
    Value w output time n = Done v n' tr /\
    ocio_texture_ n' = ocio_texture_ n /\
    texture_output_ n' = texture_output_ n.
Proof.
  destruct n as [fi mi to dec cs pl tex ocio].
  eval_cases; eexists; eexists; eexists; repeat split.
Qed.

Lemma serve_safe (cs : list Call) :
  forall n, ocio_texture_ n = 0%N ->
            exists n' tr, serve cs n = Done [] n' tr /\ ocio_texture_ n' = 0%N.
Proof.
  induction cs as [| c rest IH]; intros n H0.
  - exists n, []. split; [reflexivity | exact H0].
  - simpl. destruct c as [r | ctx].
    + destruct (Value_keeps_ocio_texture (rq_world r) (rq_output r) (rq_time r) n)
        as (v & n1 & tr1 & HV & Ho & _).
      destruct (IH n1) as (n2 & tr2 & HS & Ho2); [congruence |].
      exists n2, (tr1 ++ tr2). split; [| exact Ho2].
      unfold bind, ret. rewrite HV, HS. simpl. rewrite !app_nil_r. reflexivity.
    + rewrite (bind_Done _ _ _ _ _ _ (Release_eq ctx n H0)).
      destruct (IH (mkMediaInput (footage_input_ n) (matrix_input_ n)
                      (texture_output_ n) None None None
                      (RenderTexture.Destroy (internal_tex_ n)) 0%N))
        as (n2 & tr2 & HS & Ho2); [reflexivity |].
      exists n2, (EvTexDestroy :: tr2). split; [| exact Ho2].
      rewrite (bind_Done _ _ _ _ _ _ HS). unfold ret. simpl.
      rewrite app_nil_r. reflexivity.
Qed.


(** X1.  No run of [Value] and [Release] calls on a constructed node goes
    through a null pointer, and none reaches the [glDeleteTextures] of line
    84: [ocio_texture_] is 0 from the constructor on, so [ocio_ctx_], which
    nothing sets, is never used. *)
Theorem serve_never_dereferences_ocio_ctx (cs : list Call)
        (footage_in matrix_in tex_out : NodeParamPtr) :
  exists n' tr,
    serve cs (MediaInput_new footage_in matrix_in tex_out) = Done [] n' tr.
Proof.
  destruct (serve_safe cs (MediaInput_new footage_in matrix_in tex_out) eq_refl)
    as (n' & tr & H & _).
  eauto.
Qed.

(** With [ocio_texture_] set and [ocio_ctx_] null, [Release] does go
    through the null pointer. *)
Example Release_with_ocio_texture_and_no_context :
  Release None (mkMediaInput 10%N 11%N 12%N None None None RenderTexture.empty 5%N)
  = NullDeref.
Proof. reflexivity. Qed.

Lemma has_stream_bound (n : MediaInput) :
  has_stream n = true <-> decoder_bound n.
Proof.
  unfold has_stream, decoder_bound.
  destruct (decoder_ n) as [d |].
  - destruct (Decoder.stream d) as [st |] eqn:Hs; simpl; split.
    + intros _. exists d, st. auto.
    + reflexivity.
    + discriminate.
    + intros (d' & st' & Hd & Hs'). injection Hd as <-. congruence.
  - split; [discriminate |]. intros (d' & st' & Hd & _). discriminate.
Qed.

Lemma binds_stream_is_SetStream (tr : list Event) :
  filter is_SetStream tr = [] -> filter binds_stream tr = [].
Proof.
  induction tr as [| e tr IH]; [reflexivity |].
  simpl. destruct e; simpl; try exact IH; discriminate.
Qed.

(** One evaluation uses up the one binding the decoder has to give. *)
Lemma Value_binding_budget (w : World) (output : NodeParamPtr)
      (time : rational) (n : MediaInput) :
  let o := Value w output time n in
  let slack m := if has_stream m then 0%nat else 1%nat in
  (List.length (filter binds_stream (trace_of o)) + slack (self_after n o)
   <= slack n)%nat.
Proof.
  cbv zeta.
  destruct (Value_decoder_step w output time n) as (_ & S2 & S3 & _ & S5).
  destruct (has_stream n) eqn:Hn.
  - apply has_stream_bound in Hn.
    destruct (S5 Hn) as (Hd & Hs & _).
    rewrite (binds_stream_is_SetStream _ Hs). simpl.
    assert (Hb : has_stream (self_after n (Value w output time n)) = true).
    { apply has_stream_bound. unfold decoder_bound in *. rewrite Hd. exact Hn. }
    rewrite Hb. lia.
  - destruct (filter binds_stream (trace_of (Value w output time n)))
      as [| e l] eqn:Hf.
    + destruct (has_stream (self_after n (Value w output time n))); simpl; lia.
    + assert (Hb : has_stream (self_after n (Value w output time n)) = true).
      { apply has_stream_bound. apply S3. discriminate. }
      rewrite Hb. simpl in *. lia.
Qed.

Lemma serve_binding_budget (cs : list Call) :
  forall n g n' tr,
    serve cs n = Done g n' tr ->
    (List.length (filter binds_stream tr) + (if has_stream n' then 0 else 1)
     <= (if has_stream n then 0 else 1) + count_releases cs)%nat.
Proof.
  induction cs as [| c rest IH]; intros n g n' tr H.
  - injection H as <- <- <-. simpl. unfold count_releases. simpl. lia.
  - simpl in H. unfold bind at 1 in H.
    destruct c as [r | ctx].
    + pose proof (Value_binding_budget (rq_world r) (rq_output r) (rq_time r) n)
        as B. cbv zeta in B.
      unfold bind at 1 in H.
      destruct (Value (rq_world r) (rq_output r) (rq_time r) n)
        as [v n1 tr1 |] eqn:HV; [| discriminate].
      unfold ret at 1 in H. simpl in H, B.
      unfold bind at 1 in H.
      destruct (serve rest n1) as [gs n2 tr2 |] eqn:HS; [| discriminate].
      unfold ret in H. injection H as <- <- <-.
      specialize (IH _ _ _ _ HS).
      rewrite !app_nil_r, filter_app, length_app.
      unfold count_releases in *. simpl. lia.
    + destruct (Release ctx n) as [g1 n1 tr1 |] eqn:HR; [| discriminate].
      unfold bind at 1 in H.
      destruct (serve rest n1) as [gs n2 tr2 |] eqn:HS; [| discriminate].
      unfold ret in H. injection H as <- <- <-.
      specialize (IH _ _ _ _ HS).
      assert (Htr : filter binds_stream tr1 = []).
      { revert HR. destruct n as [fi mi to dec cs pl tex ocio].
        unfold Release. eval_cases; intros E; inversion E; reflexivity. }
      rewrite app_nil_r, filter_app, length_app, Htr.
      unfold count_releases in *. simpl.
      destruct (has_stream n1), (has_stream n); lia.
Qed.


(** X2.  Over any run of [Value] and [Release] calls that returns, the
    decoder is given a stream at most once more often than [Release] is
    called: once per decoder the node has held. *)
Theorem serve_binds_once_per_release (cs : list Call) (n n' : MediaInput)
        (g : list GLCall) (tr : list Event) :
  serve cs n = Done g n' tr ->
  (List.length (filter binds_stream tr) <= S (count_releases cs))%nat.
Proof.
  intros H. pose proof (serve_binding_budget cs n g n' tr H) as B.
  destruct (has_stream n'), (has_stream n); lia.
Qed.

Lemma serve_binds_once_per_release_witness :
  serve ReleaseExample.calls Example.node
  = Done [] (self_after Example.node ReleaseExample.outcome)
         (trace_of ReleaseExample.outcome) /\
  List.length (filter binds_stream (trace_of ReleaseExample.outcome)) = 3%nat /\
  (List.length (filter binds_stream (trace_of ReleaseExample.outcome))
   <= S (count_releases ReleaseExample.calls))%nat.
Proof.
  assert (H : serve ReleaseExample.calls Example.node
              = Done [] (self_after Example.node ReleaseExample.outcome)
                     (trace_of ReleaseExample.outcome))
    by (vm_compute; reflexivity).
  split; [exact H |]. split; [reflexivity |].
  exact (serve_binds_once_per_release ReleaseExample.calls Example.node _ _ _ H).
Defined.

(** What [Value] returns from a node whose internal texture is not created
    depends on the decoder, the colour service and the pipeline the node
    holds, and on nothing else of it. *)
Lemma Value_from_uncreated_texture (w : World) (output : NodeParamPtr)
      (time : rational) (n : MediaInput) (tex : RenderTexture.t)
      (fi mi : NodeParamPtr) (ocio : N) :
  RenderTexture.IsCreated (internal_tex_ n) = false ->
  RenderTexture.IsCreated tex = false ->
  returned (Value w output time
              (mkMediaInput fi mi (texture_output_ n) (decoder_ n)
                 (color_service_ n) (pipeline_ n) tex ocio))
  = returned (Value w output time n).
Proof.
  destruct n as [fi0 mi0 to dec cs pl [c0 w0 h0 f0 ty0 px0] ocio0].
  destruct tex as [c1 w1 h1 f1 ty1 px1].
  simpl. intros -> ->.
  unfold_eval; simpl; repeat (split_test; unfold_eval; simpl); reflexivity.
Qed.


(** X3.  After [Release], [Value] returns what it returns on a newly
    constructed node with the same texture output: nothing the node had
    cached shows in the next evaluation. *)
Theorem Value_after_Release_as_new (w : World) (output : NodeParamPtr)
        (time : rational) (n : MediaInput) (ocio_ctx_ : option Context)
        (footage_in matrix_in : NodeParamPtr) :
  ocio_texture_ n = 0%N ->
  returned (Value w output time (released ocio_ctx_ n))
  = returned (Value w output time
                (MediaInput_new footage_in matrix_in (texture_output_ n))).
Proof.
  intros H0. unfold released. rewrite (Release_eq ocio_ctx_ n H0).
  simpl self_after.
  apply (Value_from_uncreated_texture w output time
           (MediaInput_new footage_in matrix_in (texture_output_ n))
           (RenderTexture.Destroy (internal_tex_ n))
           (footage_input_ n) (matrix_input_ n) 0%N); reflexivity.
Qed.

Lemma Value_after_Release_as_new_witness :
  ocio_texture_ Example.node_warm = 0%N /\
  returned (Value (Example.world kOnline) 12%N (1 # 2)
              (released None Example.node_warm))
  = returned (Value (Example.world kOnline) 12%N (1 # 2) Example.node).
Proof.
  split; [reflexivity |].
  exact (Value_after_Release_as_new (Example.world kOnline) 12%N (1 # 2)
           Example.node_warm None 10%N 11%N eq_refl).
Defined.

(** X4.  The evaluation that follows a [Release] and returns a texture has
    created a decoder for the selected footage and created the internal
    texture; it has uploaded into no texture left from before. *)
Theorem Value_after_Release_recreates (w : World) (time : rational)
        (n : MediaInput) (ocio_ctx_ : option Context) (out : RenderTexture.t) :
  ocio_texture_ n = 0%N ->
  let o := Value w (texture_output_ n) time (released ocio_ctx_ n) in
  returned o = Some (VTexture out) ->
  exists footage,
    footage_value w time = Some footage /\
    filter is_CreateFromID (trace_of o)
    = [EvCreateFromID (Footage.decoder footage)] /\
    filter is_TexUpload (trace_of o) = [] /\
    filter is_TexCreate (trace_of o) <> [].
Proof.
  intros H0. unfold released. rewrite (Release_eq ocio_ctx_ n H0).
  simpl self_after. cbv zeta.
  destruct n as [fi mi to dec cs pl [c0 w0 h0 f0 ty0 px0] ocio0].
  unfold RenderTexture.Destroy. simpl.
  unfold_eval; simpl; repeat (split_test; unfold_eval; simpl);
    intros H; try discriminate H;
    eexists; (split; [reflexivity |]); repeat split; discriminate.
Qed.

Lemma Value_after_Release_recreates_witness :
  ocio_texture_ Example.node_warm = 0%N /\
  texture_calls (trace_of ReleaseExample.after_release)
  = [EvTexCreate 4 2 PIX_FMT_RGBA8] /\
  exists footage out,
    returned ReleaseExample.after_release = Some (VTexture out) /\
    footage_value (Example.world kOffline) (1 # 2) = Some footage /\
    filter is_CreateFromID (trace_of ReleaseExample.after_release)
    = [EvCreateFromID (Footage.decoder footage)] /\
    filter is_TexUpload (trace_of ReleaseExample.after_release) = [] /\
    filter is_TexCreate (trace_of ReleaseExample.after_release) <> [].
Proof.
  split; [reflexivity |]. split; [reflexivity |].
  destruct (Value_after_Release_recreates (Example.world kOffline) (1 # 2)
              Example.node_warm None
              (RenderTexture.mk true 16 9 PIX_FMT_RGBA16F
                 RenderTexture.kDoubleBuffer [x01; x02; x03; x04])
              eq_refl eq_refl)
    as (footage & Hf & Hc & Hu & Ht).
  exists footage. eexists.
  split; [reflexivity |]. split; [exact Hf |]. split; [exact Hc |].
  split; [exact Hu | exact Ht].
Defined.

(** ** What the node keeps between evaluations *)

(** X5.  A node whose decoder has its stream takes no notice of which
    footage is selected: with another footage in place, [Value] returns the
    same value, leaves the node in the same state and makes the same
    calls. *)
Theorem Value_bound_ignores_footage (w : World) (output : NodeParamPtr)
        (time : rational) (n : MediaInput) (f1 f2 : Footage.t) :
  decoder_bound n ->
  Value (select_footage f1 w) output time n
  = Value (select_footage f2 w) output time n.
Proof.
  intros (d & st & Hd & Hs).
  destruct n as [fi mi to dec cs pl tex ocio]. simpl in Hd. subst dec.
  unfold select_footage.
  destruct d as [did dst]. simpl in Hs. subst dst.
  unfold_eval; simpl; repeat (split_test; unfold_eval; simpl); reflexivity.
Qed.

Lemma Value_bound_ignores_footage_witness :
  decoder_bound Example.node_warm /\
  Value (select_footage Example.footage (Example.world kOnline)) 12%N (1 # 2)
        Example.node_warm
  = Value (select_footage ReleaseExample.other_footage (Example.world kOnline))
          12%N (1 # 2) Example.node_warm.
Proof.
  assert (Hb : decoder_bound Example.node_warm)
    by (eexists; eexists; split; reflexivity).
  split; [exact Hb |].
  exact (Value_bound_ignores_footage (Example.world kOnline) 12%N (1 # 2)
           Example.node_warm Example.footage ReleaseExample.other_footage Hb).
Defined.

(** The colour service and the pipeline over a run of evaluations. *)
Lemma Value_keeps_caches (w : World) (output : NodeParamPtr)
      (time : rational) (n : MediaInput) :
  let n' := self_after n (Value w output time n) in
  (forall c, color_service_ n = Some c -> color_service_ n' = Some c) /\
  (forall p, pipeline_ n = Some p -> pipeline_ n' = Some p) /\
  (forall d, decoder_ n = Some d -> exists d', decoder_ n' = Some d' /\
                                     Decoder.id d' = Decoder.id d).
Proof.
  cbv zeta. destruct n as [fi mi to dec cs pl tex ocio].
  eval_cases; simpl; repeat split; intros x Hx;
    try discriminate Hx; try (injection Hx as <-); subst;
    first [reflexivity | eexists; split; reflexivity].
Qed.


(** X6.  Over any run of evaluations the node never replaces what it has
    cached: a colour service or pipeline it holds it still holds at the end,
    and a decoder it holds is followed only by decoders of the same kind. *)
Theorem evaluate_all_keeps_caches (rqs : list Request) :
  forall n,
    let n' := fst (evaluate_all rqs n) in
    (forall c, color_service_ n = Some c -> color_service_ n' = Some c) /\
    (forall p, pipeline_ n = Some p -> pipeline_ n' = Some p) /\
    (forall d, decoder_ n = Some d ->
               exists d', decoder_ n' = Some d' /\ Decoder.id d' = Decoder.id d).
Proof.
  induction rqs as [| r rest IH]; intros n; cbv zeta.
  - simpl. repeat split; eauto.
  - simpl.
    destruct (Value_keeps_caches (rq_world r) (rq_output r) (rq_time r) n)
      as (V1 & V2 & V3).
    specialize (IH (self_after n (Value (rq_world r) (rq_output r) (rq_time r) n))).
    cbv zeta in IH.
    destruct (evaluate_all rest _) as [n' tr]. simpl in *.
    destruct IH as (I1 & I2 & I3).
    repeat split.
    + intros c Hc. apply I1, V1, Hc.
    + intros p Hp. apply I2, V2, Hp.
    + intros d Hd. destruct (V3 d Hd) as (d1 & Hd1 & Hid1).
      destruct (I3 d1 Hd1) as (d2 & Hd2 & Hid2).
      exists d2. split; [exact Hd2 | congruence].
Qed.

Lemma evaluate_all_keeps_caches_witness :
  pipeline_ Example.node_warm = Some DefaultPipeline /\
  pipeline_ (fst (evaluate_all Example.requests Example.node_warm))
  = Some DefaultPipeline.
Proof.
  split; [reflexivity |].
  exact (proj1 (proj2 (evaluate_all_keeps_caches Example.requests
                         Example.node_warm))
           DefaultPipeline eq_refl).
Defined.

(** ** What an evaluation returns and leaves *)

(** X14.  The texture [Value] returns is created, double-buffered, and has
    the width, height and pixel format of the renderer, whatever those of
    the frame it was drawn from. *)
Theorem Value_texture_has_renderer_layout (w : World) (output : NodeParamPtr)
        (time : rational) (n : MediaInput) (out : RenderTexture.t) :
  returned (Value w output time n) = Some (VTexture out) ->
  exists renderer,
    CurrentInstance w = Some renderer /\
    RenderTexture.IsCreated out = true /\
    RenderTexture.type out = RenderTexture.kDoubleBuffer /\
    RenderTexture.width out = RenderInstance.width renderer /\
    RenderTexture.height out = RenderInstance.height renderer /\
    RenderTexture.format out = RenderInstance.format renderer.
Proof.
  pose proof (Value_runs w output time n) as R.
  destruct R
    as [_ | renderer n1 tr1 _ _ _
        | renderer frame n1 tr1 frame' tr2 tex tr3 _ Hr _ n2 n3 p target _ _ _ _];
    simpl; intros H; try discriminate H.
  injection H as <-. exists renderer. repeat split. exact Hr.
Qed.

Lemma Value_texture_has_renderer_layout_witness :
  exists out,
    returned (Value (Example.world kOnline) 12%N (1 # 2) Example.node)
    = Some (VTexture out) /\
    RenderTexture.width out = 16 /\ RenderTexture.height out = 9 /\
    RenderTexture.format out = PIX_FMT_RGBA16F.
Proof.
  eexists. split; [reflexivity |].
  destruct (Value_texture_has_renderer_layout (Example.world kOnline) 12%N
              (1 # 2) Example.node _ eq_refl)
    as (renderer & Hr & _ & _ & Hw & Hh & Hf).
  injection Hr as <-. auto.
Defined.

(** X15.  An evaluation that returns 0 has done no work on the GPU and no
    colour work: every call it made is a call on the decoder or for one,
    and the internal texture, the colour service and the pipeline are as
    they were. *)
Theorem Value_zero_touches_only_decoder (w : World) (output : NodeParamPtr)
        (time : rational) (n n' : MediaInput) (tr : list Event) :
  Value w output time n = Done (VInt 0) n' tr ->
  forallb is_decoder_call tr = true /\
  internal_tex_ n' = internal_tex_ n /\
  color_service_ n' = color_service_ n /\
  pipeline_ n' = pipeline_ n.
Proof.
  destruct n as [fi mi to dec cs pl tex ocio].
  eval_cases; intros H; inversion H; subst; simpl; auto.
Qed.

Lemma Value_zero_touches_only_decoder_witness :
  let w := select_footage ReleaseExample.other_footage (Example.world kOnline) in
  Value w 12%N (1 # 2) Example.node
  = Done (VInt 0) Example.node [EvCreateFromID "image"] /\
  forallb is_decoder_call [EvCreateFromID "image"] = true /\
  internal_tex_ Example.node = internal_tex_ Example.node /\
  color_service_ Example.node = color_service_ Example.node /\
  pipeline_ Example.node = pipeline_ Example.node.
Proof.
  cbv zeta. split; [reflexivity |].
  exact (Value_zero_touches_only_decoder
           (select_footage ReleaseExample.other_footage (Example.world kOnline))
           12%N (1 # 2) Example.node Example.node
           [EvCreateFromID "image"] eq_refl).
Defined.

(** * Properties of the timeline view *)

Lemma int_Some (z : Z) : INT_MIN <= z <= INT_MAX -> int z = Some z.
Proof.
  intros [H1 H2]. unfold int.
  apply Z.leb_le in H1. apply Z.leb_le in H2. rewrite H1, H2. reflexivity.
Qed.

Lemma int_inv (z r : Z) : int z = Some r -> r = z /\ INT_MIN <= z <= INT_MAX.
Proof.
  unfold int. destruct (INT_MIN <=? z) eqn:H1; [| discriminate].
  destruct (z <=? INT_MAX) eqn:H2; [| discriminate].
  simpl. intros H. injection H as <-.
  apply Z.leb_le in H1. apply Z.leb_le in H2. auto.
Qed.

(** The loop of [GetTrackY], from any point of its run. *)
Lemma GetTrackY_loop_eq (v : TimelineView.t) (track_index : Z) (fuel : nat) :
  forall i y,
    let h := TimelineView.fontMetrics_height v * 3 in
    0 <= h -> 0 <= i -> 0 <= y ->
    (Z.to_nat (track_index - i) <= fuel)%nat ->
    y + Z.max 0 (track_index - i) * h <= INT_MAX ->
    track_index <= INT_MAX ->
    TimelineView.GetTrackY_loop v track_index fuel i y
    = Some (y + Z.max 0 (track_index - i) * h).
Proof.
  induction fuel as [| fuel IH]; intros i y h Hh Hi Hy Hf Hb Hk; simpl.
  - destruct (Z.ltb_spec i track_index); [lia |].
    f_equal. lia.
  - destruct (Z.ltb_spec i track_index) as [Hlt | Hge].
    + unfold TimelineView.GetTrackHeight. fold h.
      assert (Hh' : h <= INT_MAX) by nia.
      rewrite (int_Some h) by (unfold INT_MIN; lia).
      rewrite (int_Some (y + h)) by (unfold INT_MIN; nia).
      rewrite (int_Some (i + 1)) by (unfold INT_MIN; lia).
      rewrite IH; try lia; try nia.
      f_equal. nia.
    + f_equal. lia.
Qed.

(** [GetTrackY] in closed form. *)
Lemma GetTrackY_value (v : TimelineView.t) (track_index : Z) :
  let h := TimelineView.fontMetrics_height v * 3 in
  let k := Z.max 0 track_index in
  0 <= h ->
  (k + 1) * h <= INT_MAX ->
  track_index <= INT_MAX ->
  TimelineView.GetTrackY v track_index
  = Some (if TimelineView.bottom_aligned v then - (k + 1) * h else k * h).
Proof.
  intros h k Hh Hb Hk. unfold TimelineView.GetTrackY.
  assert (Hk0 : 0 <= k) by (subst k; lia).
  assert (Hkh : 0 <= k * h <= INT_MAX) by (unfold INT_MAX in *; nia).
  assert (Hh' : h <= INT_MAX) by (unfold INT_MAX in *; nia).
  rewrite (GetTrackY_loop_eq v track_index (Z.to_nat track_index) 0 0);
    fold h; rewrite ?Z.sub_0_r; fold k; try lia.
  rewrite Z.add_0_l.
  destruct (TimelineView.bottom_aligned v); [| reflexivity].
  unfold TimelineView.GetTrackHeight. fold h.
  rewrite (int_Some (- (k * h))) by (unfold INT_MIN, INT_MAX in *; lia).
  rewrite (int_Some h) by (unfold INT_MIN, INT_MAX in *; lia).
  rewrite (int_Some (- (k * h) - h)) by (unfold INT_MIN, INT_MAX in *; lia).
  f_equal. ring.
Qed.

(** X7.  With tracks of height [h = 3 * fontMetrics().height()], track [k]
    of a top-aligned view starts at [k * h] and track [k] of a bottom-aligned
    view at [- (k + 1) * h], as long as [(k + 1) * h] fits an [int]; an
    index below 0 counts as 0. *)
Theorem GetTrackY_eq (v : TimelineView.t) (track_index : Z) :
  let h := TimelineView.fontMetrics_height v * 3 in
  let k := Z.max 0 track_index in
  0 <= h ->
  (k + 1) * h <= INT_MAX ->
  track_index <= INT_MAX ->
  TimelineView.GetTrackY v track_index
  = Some (if TimelineView.bottom_aligned v then - (k + 1) * h else k * h).
Proof.
  intros h k Hh Hb Hk.
  pose proof (GetTrackY_value v track_index) as V. cbv zeta in V.
  fold h in V. fold k in V.
  apply V; assumption.
Qed.

Lemma GetTrackY_eq_witness :
  0 <= TimelineView.fontMetrics_height TimelineExample.bottom * 3 /\
  TimelineView.GetTrackY TimelineExample.bottom 2 = Some (-144) /\
  TimelineView.GetTrackY TimelineExample.top 2 = Some 96 /\
  TimelineView.GetTrackY TimelineExample.top (-7) = Some 0.
Proof.
  split; [vm_compute; discriminate |].
  split; [| split].
  - apply (GetTrackY_eq TimelineExample.bottom 2); vm_compute; discriminate.
  - apply (GetTrackY_eq TimelineExample.top 2); vm_compute; discriminate.
  - apply (GetTrackY_eq TimelineExample.top (-7)); vm_compute; discriminate.
Defined.


(** The loop of [SceneToTrack], whenever it returns. *)
Lemma SceneToTrack_loop_sound (v : TimelineView.t) (y : Q) (fuel : nat) :
  forall track heights t,
    let h := TimelineView.fontMetrics_height v * 3 in
    heights = (track + 1) * h ->
    TimelineView.SceneToTrack_loop v y fuel track heights = Some t ->
    track < t /\
    (y <= inject_Z ((t + 1) * h))%Q /\
    (forall j, track < j < t -> (inject_Z ((j + 1) * h) < y)%Q).
Proof.
  induction fuel as [| fuel IH]; intros track heights t h Hh H; simpl in H.
  - discriminate.
  - destruct (int (track + 1)) as [track' |] eqn:Ht; [| discriminate].
    apply int_inv in Ht. destruct Ht as (-> & _).
    unfold TimelineView.GetTrackHeight in H. fold h in H.
    destruct (int h) as [h' |] eqn:Hh'; [| discriminate].
    apply int_inv in Hh'. destruct Hh' as (-> & _).
    destruct (int (heights + h)) as [heights' |] eqn:Hs; [| discriminate].
    apply int_inv in Hs. destruct Hs as (-> & _).
    assert (Heq : heights + h = (track + 1 + 1) * h) by (subst heights; ring).
    destruct (Qlt_bool (inject_Z (heights + h)) y) eqn:Hc.
    + apply Qlt_bool_iff in Hc.
      destruct (IH (track + 1) (heights + h) t Heq H) as (I1 & I2 & I3).
      split; [lia |]. split; [exact I2 |].
      intros j Hj. destruct (Z.eq_dec j (track + 1)) as [-> | Hne].
      * rewrite <- Heq. exact Hc.
      * apply I3. lia.
    + injection H as <-.
      split; [lia |]. split.
      * rewrite <- Heq.
        apply Qnot_lt_le. intros Hlt. apply Qlt_bool_iff in Hlt. congruence.
      * intros j Hj. lia.
Qed.

(** Whatever [SceneToTrack] returns is a track index of 0 or more, the
    first one whose lower edge the coordinate does not lie beyond. *)
Lemma SceneToTrack_result (v : TimelineView.t) (y : Q) (fuel : nat) (t : Z) :
  TimelineView.SceneToTrack v y fuel = Some t ->
  let h := TimelineView.fontMetrics_height v * 3 in
  0 <= t /\
  (TimelineView.depth v y <= inject_Z ((t + 1) * h))%Q /\
  (forall j, 0 <= j < t -> (inject_Z ((j + 1) * h) < TimelineView.depth v y)%Q).
Proof.
  intros H. cbv zeta. unfold TimelineView.SceneToTrack, TimelineView.depth in *. cbv zeta in H.
  destruct (SceneToTrack_loop_sound v _ fuel (-1) 0 t eq_refl H) as (H1 & H2 & H3).
  split; [lia |]. split; [exact H2 |].
  intros j Hj. apply H3. lia.
Qed.

(** The loop of [SceneToTrack] run to the track it stops at. *)
Lemma SceneToTrack_loop_complete (v : TimelineView.t) (y : Q) (d : nat) :
  forall track fuel,
    let h := TimelineView.fontMetrics_height v * 3 in
    let t := track + 1 + Z.of_nat d in
    0 < h -> -1 <= track ->
    (t + 1) * h <= INT_MAX ->
    (forall j, track < j < t -> (inject_Z ((j + 1) * h) < y)%Q) ->
    (y <= inject_Z ((t + 1) * h))%Q ->
    (d < fuel)%nat ->
    TimelineView.SceneToTrack_loop v y fuel track ((track + 1) * h) = Some t.
Proof.
  induction d as [| d IH]; intros track fuel h t Hh Htr Hb Hlow Hup Hf;
    (destruct fuel as [| fuel]; [lia |]); simpl;
    unfold TimelineView.GetTrackHeight; fold h;
    assert (Hhm : h <= INT_MAX) by nia;
    assert (Ht1 : track + 1 <= INT_MAX) by nia;
    rewrite (int_Some (track + 1)) by (unfold INT_MIN; lia);
    rewrite (int_Some h) by (unfold INT_MIN; lia);
    rewrite (int_Some ((track + 1) * h + h)) by (unfold INT_MIN; nia);
    replace ((track + 1) * h + h) with ((track + 1 + 1) * h) by ring.
  - subst t. rewrite Z.add_0_r in *.
    destruct (Qlt_bool (inject_Z ((track + 1 + 1) * h)) y) eqn:Hc.
    + apply Qlt_bool_iff in Hc. exfalso. exact (Qlt_not_le _ _ Hc Hup).
    + reflexivity.
  - assert (Hc : Qlt_bool (inject_Z ((track + 1 + 1) * h)) y = true).
    { apply Qlt_bool_iff. apply Hlow. subst t. lia. }
    rewrite Hc.
    assert (Et : track + 1 + 1 + Z.of_nat d = t) by (subst t; lia).
    specialize (IH (track + 1) fuel). cbv zeta in IH. fold h in IH.
    rewrite Et in IH.
    apply IH; [exact Hh | lia | exact Hb | | exact Hup | lia].
    intros j Hj. apply Hlow. lia.
Qed.

(** [SceneToTrack] returns the track the coordinate is in once it has
    [t + 1] iterations to run. *)
Lemma SceneToTrack_at (v : TimelineView.t) (y : Q) (t : Z) (fuel : nat) :
  let h := TimelineView.fontMetrics_height v * 3 in
  0 < h ->
  0 <= t ->
  (t + 1) * h <= INT_MAX ->
  (t = 0 \/ (inject_Z (t * h) < TimelineView.depth v y)%Q) ->
  (TimelineView.depth v y <= inject_Z ((t + 1) * h))%Q ->
  (Z.to_nat t < fuel)%nat ->
  TimelineView.SceneToTrack v y fuel = Some t.
Proof.
  intros h Hh Ht Hb Hlow Hup Hf. unfold TimelineView.SceneToTrack. fold (TimelineView.depth v y).
  pose proof (SceneToTrack_loop_complete v (TimelineView.depth v y) (Z.to_nat t) (-1) fuel)
    as L. cbv zeta in L. fold h in L.
  replace (-1 + 1 + Z.of_nat (Z.to_nat t)) with t in L by lia.
  change ((-1 + 1) * h) with 0 in L.
  apply L; try lia; try assumption.
  intros j Hj. destruct Hlow as [-> | Hlow]; [lia |].
  apply Qle_lt_trans with (y := inject_Z (t * h)); [| exact Hlow].
  rewrite <- Zle_Qle. nia.
Qed.

(** X8.  With a positive track height [h], [SceneToTrack] returns [t]
    exactly for the coordinates in track [t]: those at depth in
    [(t * h, (t + 1) * h]], and for track 0 also everything above.  It
    returns [t] once it has [t + 1] iterations to run. *)
Theorem SceneToTrack_track (v : TimelineView.t) (y : Q) (t : Z) :
  let h := TimelineView.fontMetrics_height v * 3 in
  0 < h ->
  (t + 1) * h <= INT_MAX ->
  (forall fuel, TimelineView.SceneToTrack v y fuel = Some t ->
                TimelineView.in_track v y t) /\
  (TimelineView.in_track v y t ->
   forall fuel, (Z.to_nat t < fuel)%nat ->
                TimelineView.SceneToTrack v y fuel = Some t).
Proof.
  intros h Hh Hb. unfold TimelineView.in_track. fold h. split.
  - intros fuel H.
    destruct (SceneToTrack_result v y fuel t H) as (R1 & R2 & R3).
    fold h in R2, R3.
    split; [exact R1 |]. split; [| exact R2].
    destruct (Z.eq_dec t 0) as [-> | Hne]; [left; reflexivity |].
    right. replace (t * h) with ((t - 1 + 1) * h) by ring.
    apply R3. lia.
  - intros (I1 & I2 & I3) fuel Hf.
    apply SceneToTrack_at; fold h; assumption.
Qed.

Lemma SceneToTrack_track_witness :
  0 < TimelineView.fontMetrics_height TimelineExample.top * 3 /\
  TimelineView.in_track TimelineExample.top (100 # 1) 2 /\
  TimelineView.SceneToTrack TimelineExample.top (100 # 1) 3 = Some 2.
Proof.
  assert (Hin : TimelineView.in_track TimelineExample.top (100 # 1) 2).
  { split; [vm_compute; discriminate |]. split.
    - right. reflexivity.
    - vm_compute. discriminate. }
  split; [reflexivity |]. split; [exact Hin |].
  apply (proj2 (SceneToTrack_track TimelineExample.top (100 # 1) 2
                  eq_refl ltac:(vm_compute; discriminate)) Hin 3%nat).
  vm_compute. lia.
Defined.


(** X10.  [SceneToTrack] never returns a track below 0, and it is monotone
    in the depth of the coordinate, whatever the track height and however
    many iterations either run was given. *)
Theorem SceneToTrack_monotone (v : TimelineView.t) (y1 y2 : Q)
        (fuel1 fuel2 : nat) (t1 t2 : Z) :
  TimelineView.SceneToTrack v y1 fuel1 = Some t1 ->
  TimelineView.SceneToTrack v y2 fuel2 = Some t2 ->
  (TimelineView.depth v y1 <= TimelineView.depth v y2)%Q ->
  0 <= t1 <= t2.
Proof.
  intros H1 H2 Hle.
  split; [exact (proj1 (SceneToTrack_result v y1 fuel1 t1 H1)) |].
  destruct (SceneToTrack_result v y1 fuel1 t1 H1) as (A1 & _ & A3).
  destruct (SceneToTrack_result v y2 fuel2 t2 H2) as (B1 & B2 & _).
  destruct (Z_le_gt_dec t1 t2) as [Hok | Hgt]; [exact Hok |].
  exfalso.
  assert (Hlt : (inject_Z ((t2 + 1) * (TimelineView.fontMetrics_height v * 3)) < TimelineView.depth v y1)%Q)
    by (apply A3; lia).
  apply (Qlt_not_le _ _ Hlt).
  apply Qle_trans with (y := TimelineView.depth v y2); assumption.
Qed.

Lemma SceneToTrack_monotone_witness :
  TimelineView.SceneToTrack TimelineExample.bottom (-10 # 1) 1 = Some 0 /\
  TimelineView.SceneToTrack TimelineExample.bottom (-100 # 1) 3 = Some 2 /\
  0 <= 0 <= 2.
Proof.
  split; [reflexivity |]. split; [reflexivity |].
  apply (SceneToTrack_monotone TimelineExample.bottom (-10 # 1) (-100 # 1)
           1 3 0 2 eq_refl eq_refl).
  vm_compute. discriminate.
Defined.


(** X11.  The edge between two tracks belongs to the track nearer the
    aligned side.  In a bottom-aligned view the coordinate [GetTrackY] gives
    for track [k] is in track [k]; in a top-aligned view it is in track
    [k - 1], for every [k] but 0. *)
Theorem SceneToTrack_of_GetTrackY (v : TimelineView.t) (k y : Z) (fuel : nat) :
  let h := TimelineView.fontMetrics_height v * 3 in
  0 < h ->
  0 <= k ->
  (k + 1) * h <= INT_MAX ->
  (Z.to_nat k < fuel)%nat ->
  TimelineView.GetTrackY v k = Some y ->
  TimelineView.SceneToTrack v (inject_Z y) fuel
  = Some (if TimelineView.bottom_aligned v then k else Z.max 0 (k - 1)).
Proof.
  intros h Hh Hk Hb Hf Hy.
  assert (Hkm : k <= INT_MAX) by (unfold INT_MAX in *; nia).
  rewrite (GetTrackY_value v k) in Hy; fold h; try lia;
    try (rewrite Z.max_r by lia; exact Hb).
  fold h in Hy. rewrite Z.max_r in Hy by lia. injection Hy as <-.
  destruct (TimelineView.bottom_aligned v) eqn:Hbot.
  - apply SceneToTrack_at; fold h; unfold TimelineView.depth; rewrite ?Hbot;
      [exact Hh | exact Hk | exact Hb | | | exact Hf].
    + right. rewrite <- inject_Z_opp, <- Zlt_Qlt. nia.
    + rewrite <- inject_Z_opp, <- Zle_Qle. lia.
  - destruct (Z.eq_dec k 0) as [-> | Hne].
    + change (Z.max 0 (0 - 1)) with 0.
      apply SceneToTrack_at; fold h; unfold TimelineView.depth; rewrite ?Hbot;
        [exact Hh | lia | exact Hb | left; reflexivity | | exact Hf].
      rewrite <- Zle_Qle. lia.
    + rewrite Z.max_r by lia.
      apply SceneToTrack_at; fold h; unfold TimelineView.depth; rewrite ?Hbot;
        [exact Hh | lia | unfold INT_MAX in *; nia | | | lia].
      * right. rewrite <- Zlt_Qlt. nia.
      * rewrite <- Zle_Qle. nia.
Qed.

Lemma SceneToTrack_of_GetTrackY_witness :
  TimelineView.GetTrackY TimelineExample.bottom 2 = Some (-144) /\
  TimelineView.SceneToTrack TimelineExample.bottom (inject_Z (-144)) 3 = Some 2 /\
  TimelineView.GetTrackY TimelineExample.top 2 = Some 96 /\
  TimelineView.SceneToTrack TimelineExample.top (inject_Z 96) 3 = Some 1.
Proof.
  split; [reflexivity |]. split; [| split; [reflexivity |]].
  - apply (SceneToTrack_of_GetTrackY TimelineExample.bottom 2 (-144) 3);
      first [reflexivity | vm_compute; discriminate | vm_compute; lia].
  - apply (SceneToTrack_of_GetTrackY TimelineExample.top 2 96 3);
      first [reflexivity | vm_compute; discriminate | vm_compute; lia].
Defined.


(** The loop of [SceneToTrack] with tracks of no height. *)
Lemma SceneToTrack_loop_flat (v : TimelineView.t) (y : Q) (fuel : nat) :
  forall track heights,
    TimelineView.fontMetrics_height v * 3 <= 0 ->
    heights <= 0 ->
    (0 < y)%Q ->
    TimelineView.SceneToTrack_loop v y fuel track heights = None.
Proof.
  induction fuel as [| fuel IH]; intros track heights Hh Hs Hy; simpl.
  - reflexivity.
  - destruct (int (track + 1)) as [track' |]; [| reflexivity].
    unfold TimelineView.GetTrackHeight.
    destruct (int (TimelineView.fontMetrics_height v * 3)) as [h |] eqn:Eh; [| reflexivity].
    apply int_inv in Eh. destruct Eh as (-> & _).
    destruct (int (heights + TimelineView.fontMetrics_height v * 3)) as [hs |] eqn:Es;
      [| reflexivity].
    apply int_inv in Es. destruct Es as (-> & _).
    assert (Hc : Qlt_bool (inject_Z (heights + TimelineView.fontMetrics_height v * 3)) y = true).
    { apply Qlt_bool_iff.
      apply Qle_lt_trans with (y := inject_Z 0); [| exact Hy].
      rewrite <- Zle_Qle. lia. }
    rewrite Hc. apply IH; [exact Hh | lia | exact Hy].
Qed.

(** X12.  When the font has no height, [SceneToTrack] has no result for a
    coordinate of positive depth: the loop of lines 272-275 runs until
    [track] or [heights] leaves the range of [int], however many iterations
    it is given. *)
Theorem SceneToTrack_flat_never_returns (v : TimelineView.t) (y : Q) (fuel : nat) :
  TimelineView.fontMetrics_height v <= 0 ->
  (0 < TimelineView.depth v y)%Q ->
  TimelineView.SceneToTrack v y fuel = None.
Proof.
  intros Hh Hy. unfold TimelineView.SceneToTrack. fold (TimelineView.depth v y).
  apply SceneToTrack_loop_flat; [lia | lia | exact Hy].
Qed.

Lemma SceneToTrack_flat_never_returns_witness :
  TimelineView.fontMetrics_height TimelineExample.flat <= 0 /\
  TimelineView.SceneToTrack TimelineExample.flat (5 # 1) 1000 = None.
Proof.
  split; [vm_compute; discriminate |].
  apply (SceneToTrack_flat_never_returns TimelineExample.flat (5 # 1) 1000).
  - vm_compute. discriminate.
  - reflexivity.
Defined.


(** X13.  [TrackTypeToStreamType] gives [kUnknown] for [kTrackTypeNone] and
    [kTrackTypeCount] and for nothing else, and tells the other track types
    apart. *)
Theorem TrackTypeToStreamType_faithful (a b : TrackType) :
  (TrackTypeToStreamType a = StreamType.kUnknown
   <-> a = kTrackTypeNone \/ a = kTrackTypeCount) /\
  (TrackTypeToStreamType a = TrackTypeToStreamType b ->
   TrackTypeToStreamType a <> StreamType.kUnknown ->
   a = b).
Proof.
  split.
  - destruct a; simpl; split; intros H; auto;
      try discriminate H; destruct H as [H | H]; discriminate H.
  - destruct a, b; simpl; intros H Hn; try reflexivity;
      try discriminate H; exfalso; apply Hn; reflexivity.
Qed.

Lemma TrackTypeToStreamType_faithful_witness :
  TrackTypeToStreamType kTrackTypeAudio = StreamType.kAudio /\
  (TrackTypeToStreamType kTrackTypeCount = StreamType.kUnknown
   <-> kTrackTypeCount = kTrackTypeNone \/ kTrackTypeCount = kTrackTypeCount) /\
  kTrackTypeAudio = kTrackTypeAudio.
Proof.
  split; [reflexivity |]. split.
  - exact (proj1 (TrackTypeToStreamType_faithful kTrackTypeCount kTrackTypeCount)).
  - apply (proj2 (TrackTypeToStreamType_faithful kTrackTypeAudio kTrackTypeAudio)).
    + reflexivity.
    + discriminate.
Defined.


(** X9.  With a positive track height [h] that fits an [int],
    [SceneToTrack] returns for every coordinate whose depth is at most
    [INT_MAX - h], once the fuel covers the track it stops at. *)
Theorem SceneToTrack_returns (v : TimelineView.t) (y : Q) :
  let h := TimelineView.fontMetrics_height v * 3 in
  0 < h <= INT_MAX ->
  (TimelineView.depth v y <= inject_Z (INT_MAX - h))%Q ->
  exists t,
    forall fuel, (Z.to_nat t < fuel)%nat -> TimelineView.SceneToTrack v y fuel = Some t.
Proof.
  intros h [Hh Hhm] Hd.
  destruct (Qlt_le_dec (inject_Z h) (TimelineView.depth v y)) as [Hbig | Hsmall].
  - set (x := (TimelineView.depth v y / inject_Z h)%Q).
    set (t := Qceiling x - 1).
    assert (Hhq : (inject_Z 0 < inject_Z h)%Q) by (rewrite <- Zlt_Qlt; exact Hh).
    assert (Hhn : ~ (inject_Z h == 0)%Q).
    { intros E. rewrite E in Hhq. exact (Qlt_irrefl _ Hhq). }
    assert (Hx : (x * inject_Z h == TimelineView.depth v y)%Q)
      by (unfold x; field; exact Hhn).
    assert (Hlo : (inject_Z (t * h) < TimelineView.depth v y)%Q).
    { rewrite inject_Z_mult, <- Hx.
      apply Qmult_lt_compat_r; [exact Hhq |]. apply Qceiling_lt. }
    assert (Hup : (TimelineView.depth v y <= inject_Z ((t + 1) * h))%Q).
    { rewrite inject_Z_mult, <- Hx.
      apply Qmult_le_compat_r; [| apply Qlt_le_weak; exact Hhq].
      unfold t. replace (Qceiling x - 1 + 1) with (Qceiling x) by ring.
      apply Qle_ceiling. }
    assert (Ht : 0 <= t).
    { assert (Hc : (inject_Z h < inject_Z ((t + 1) * h))%Q)
        by (apply Qlt_le_trans with (y := TimelineView.depth v y); assumption).
      rewrite <- Zlt_Qlt in Hc. nia. }
    assert (Hb : (t + 1) * h <= INT_MAX).
    { assert (Hc : (inject_Z (t * h) < inject_Z (INT_MAX - h))%Q)
        by (apply Qlt_le_trans with (y := TimelineView.depth v y); assumption).
      rewrite <- Zlt_Qlt in Hc. lia. }
    exists t. intros fuel Hf.
    apply SceneToTrack_at; fold h; auto.
  - exists 0. intros fuel Hf.
    apply SceneToTrack_at; fold h; auto; try lia.
    rewrite Z.mul_1_l. exact Hsmall.
Qed.

Lemma SceneToTrack_returns_witness :
  0 < TimelineView.fontMetrics_height TimelineExample.top * 3 <= INT_MAX /\
  exists t,
    forall fuel, (Z.to_nat t < fuel)%nat ->
                 TimelineView.SceneToTrack TimelineExample.top (100 # 1) fuel
                 = Some t.
Proof.
  assert (H : 0 < TimelineView.fontMetrics_height TimelineExample.top * 3
              <= INT_MAX)
    by (split; [reflexivity | vm_compute; discriminate]).
  split; [exact H |].
  apply (SceneToTrack_returns TimelineExample.top (100 # 1) H).
  vm_compute. discriminate.
Defined.
